(** * ServeForPakbh: the payment backend of [src/index.js]

    A shallow embedding of the Express application: the CORS gate, the
    four POST handlers, the e-mail notifier [sendOrderEmails] and the
    health check, followed by the properties of the specification.

    Conventions of the embedding.
    - Request bodies, provider objects and object literals are JSON
      values ([JS.value]); a JS number is its exact real value (a
      rational), NaN or an infinity.
    - A handler is a computation in the monad [M]: it leaves a trace of
      the calls made to the outside world (payment provider, mailer) and
      either completes with a value or throws.
    - The outside world is read through two records: [builtins] (the
      parts of the JS runtime whose result depends on binary64 rounding)
      and [services] (payment provider, mailer, clock). The markup of
      the two e-mail templates is a third parameter, [templates].
    - Console output is not part of the trace; the expressions evaluated
      for it are, because they can throw. *)

From Stdlib Require Import ZArith QArith Qabs Qround String Ascii List Bool Lia.
From Stdlib Require Import DecimalString Lqa.
Import ListNotations.
Close Scope Q_scope.
Open Scope string_scope.
#[local] Set Warnings "-register-all".

(** ** JSON values and the JavaScript operations used by the handlers *)

Module JS.

(** A Number: NaN, plus or minus Infinity, or a finite value. *)
Inductive number : Type :=
| NaN
| Infinity (negative : bool)
| Finite (q : Q).

Inductive value : Type :=
| Undefined
| Null
| Boolean (b : bool)
| Num (n : number)
| Str (s : string)
| Arr (elements : list value)
| Obj (fields : list (string * value)).

(** A thrown [Error]: [message], and the [type] the payment provider's
    errors carry ([None] for a plain [Error] or [TypeError]). *)
Record error : Type := mkError {
  message : string;
  type : option string
}.

Definition TypeError (msg : string) : error := mkError msg None.

Inductive completion (A : Type) : Type :=
| Normal (a : A)
| Throw (e : error).
Arguments Normal {A} a.
Arguments Throw {A} e.

Definition cbind {A B} (c : completion A) (k : A -> completion B)
  : completion B :=
  match c with
  | Normal a => k a
  | Throw e => Throw e
  end.

(** *** Numbers *)

Definition of_Z (z : Z) : number := Finite (inject_Z z).
Definition of_nat (n : nat) : number := of_Z (Z.of_nat n).

Definition is_zero (q : Q) : bool := (Qnum q =? 0)%Z.

(** [x < y] on Numbers; [false] as soon as one side is NaN. *)
Definition number_ltb (x y : number) : bool :=
  match x, y with
  | NaN, _ | _, NaN => false
  | Infinity true, Infinity true => false
  | Infinity true, _ => true
  | _, Infinity true => false
  | Infinity false, _ => false
  | Finite _, Infinity false => true
  | Finite a, Finite b => negb (Qle_bool b a)
  end.

(** [x >= y], written [number_ltb]-free for the statements. *)
Definition number_geb (x y : number) : bool :=
  match x, y with
  | NaN, _ | _, NaN => false
  | _, _ => negb (number_ltb x y)
  end.

(** [Math.round]: the nearest integer, ties towards plus Infinity. *)
Definition Math_round (x : number) : number :=
  match x with
  | Finite q => of_Z (Qfloor (q + (1 # 2))%Q)
  | _ => x
  end.

Definition digits (z : Z) : string :=
  NilZero.string_of_uint (N.to_uint (Z.to_N z)).

Definition two_digits (z : Z) : string :=
  if (z <? 10)%Z then "0" ++ digits z else digits z.

(** The integer [n] for which [n / 100 - x] is closest to zero, the
    larger one on a tie ([x >= 0]). *)
Definition hundredths (x : Q) : Z := Qfloor (x * 100 + (1 # 2))%Q.

Definition fixed2 (x : Q) : string :=
  let n := hundredths (Qabs x) in
  (if Qle_bool 0%Q x then "" else "-")
    ++ digits (n / 100) ++ "." ++ two_digits (n mod 100).

Definition ten_pow_21 : Q := inject_Z (10 ^ 21).

(** Truthiness ([!!v]). *)
Definition truthy (v : value) : bool :=
  match v with
  | Undefined | Null => false
  | Boolean b => b
  | Num NaN => false
  | Num (Infinity _) => true
  | Num (Finite q) => negb (is_zero q)
  | Str s => negb (s =? "")
  | Arr _ | Obj _ => true
  end.

Definition nullish (v : value) : bool :=
  match v with
  | Undefined | Null => true
  | _ => false
  end.

(** [a || b] and [a && b]. *)
Definition or (a b : value) : value := if truthy a then a else b.
Definition and (a b : value) : value := if truthy a then b else a.

(** *** Objects *)

Fixpoint lookup (fs : list (string * value)) (k : string) : value :=
  match fs with
  | [] => Undefined
  | (k', v) :: fs' => if k' =? k then v else lookup fs' k
  end.

(** [o[k] = v] on the field list: overwrite in place or append. *)
Fixpoint assign (fs : list (string * value)) (k : string) (v : value)
  : list (string * value) :=
  match fs with
  | [] => [(k, v)]
  | (k', v') :: fs' =>
      if k' =? k then (k, v) :: fs' else (k', v') :: assign fs' k v
  end.

Fixpoint remove (fs : list (string * value)) (k : string)
  : list (string * value) :=
  match fs with
  | [] => []
  | (k', v') :: fs' =>
      if k' =? k then remove fs' k else (k', v') :: remove fs' k
  end.

(** The object literal [{k1: v1, ..., kn: vn}]. *)
Definition literal (fs : list (string * value)) : value :=
  Obj (fold_left (fun acc kv => assign acc (fst kv) (snd kv)) fs []).

(** [v.k] for the property names the source reads ([length] is the
    only one an array or a string answers; no index is ever read).
    Reading a property of [undefined] or [null] throws. *)
Definition get (v : value) (k : string) : completion value :=
  match v with
  | Undefined | Null =>
      Throw (TypeError ("Cannot read properties of undefined (reading '"
                          ++ k ++ "')"))
  | Obj fs => Normal (lookup fs k)
  | Arr l => Normal (if k =? "length" then Num (of_nat (length l))
                     else Undefined)
  | Str s => Normal (if k =? "length" then Num (of_nat (String.length s))
                     else Undefined)
  | Boolean _ | Num _ => Normal Undefined
  end.

(** [v?.k] *)
Definition get_opt (v : value) (k : string) : completion value :=
  if nullish v then Normal Undefined else get v k.

(** [const { k = d } = ...]: the default replaces [undefined] only. *)
Definition default (v d : value) : value :=
  match v with
  | Undefined => d
  | _ => v
  end.

Fixpoint indexed_from (i : nat) (l : list value) : list (string * value) :=
  match l with
  | [] => []
  | x :: l' =>
      (NilZero.string_of_uint (Nat.to_uint i), x) :: indexed_from (S i) l'
  end.

Fixpoint chars (s : string) : list value :=
  match s with
  | EmptyString => []
  | String c s' => Str (String c EmptyString) :: chars s'
  end.

(** The own enumerable properties copied by [{...v}]. *)
Definition spread (v : value) : list (string * value) :=
  match v with
  | Obj fs => fs
  | Arr l => indexed_from 0 l
  | Str s => indexed_from 0 (chars s)
  | _ => []
  end.

Fixpoint has_own (fs : list (string * value)) (k : string) : bool :=
  match fs with
  | [] => false
  | (k', _) :: fs' => (k' =? k) || has_own fs' k
  end.

(** [v === s] for a string literal [s]. *)
Definition is_string (v : value) (s : string) : bool :=
  match v with
  | Str s' => s' =? s
  | _ => false
  end.

(** *** Conversions

    The three operations whose result depends on the binary64 format
    are taken from the runtime. *)
Record builtins : Type := {
  number_to_string : number -> string;   (* Number::toString *)
  string_to_number : string -> number;   (* StringToNumber *)
  divide : number -> number -> number    (* x / y *)
}.

Section Conversions.
Variable rt : builtins.

(** [n.toFixed(2)] *)
Definition toFixed2 (n : number) : string :=
  match n with
  | NaN => "NaN"
  | Infinity false => "Infinity"
  | Infinity true => "-Infinity"
  | Finite q =>
      if Qle_bool ten_pow_21 (Qabs q) then number_to_string rt n
      else fixed2 q
  end.

(** [v.toFixed(2)] for an expression [v] printed as [name]: only a
    Number has the method. *)
Definition call_toFixed2 (name : string) (v : value) : completion value :=
  match v with
  | Num n => Normal (Str (toFixed2 n))
  | Undefined | Null =>
      Throw (TypeError ("Cannot read properties of undefined (reading 'toFixed')"))
  | _ => Throw (TypeError (name ++ ".toFixed is not a function"))
  end.

(** ToString, as a template literal or [v.toString()] applies it. A
    parsed object answers "[object Object]" unless it has an own
    [toString] field, which is not callable. *)
Fixpoint to_string (v : value) : completion string :=
  match v with
  | Undefined => Normal "undefined"
  | Null => Normal "null"
  | Boolean true => Normal "true"
  | Boolean false => Normal "false"
  | Num n => Normal (number_to_string rt n)
  | Str s => Normal s
  | Arr l =>
      (fix join (l : list value) : completion string :=
         match l with
         | [] => Normal ""
         | x :: l' =>
             cbind (if nullish x then Normal "" else to_string x)
               (fun s =>
                  match l' with
                  | [] => Normal s
                  | _ :: _ =>
                      cbind (join l') (fun r => Normal (s ++ "," ++ r))
                  end)
         end) l
  | Obj fs =>
      if has_own fs "toString"
      then Throw (TypeError "Cannot convert object to primitive value")
      else Normal "[object Object]"
  end.

(** ToNumber *)
Definition to_number (v : value) : completion number :=
  match v with
  | Undefined => Normal NaN
  | Null => Normal (of_Z 0)
  | Boolean b => Normal (of_Z (if b then 1 else 0))
  | Num n => Normal n
  | Str s => Normal (string_to_number rt s)
  | Arr _ | Obj _ =>
      cbind (to_string v) (fun s => Normal (string_to_number rt s))
  end.

(** [v < n] for a numeric literal [n]. *)
Definition less_than (v : value) (n : number) : completion bool :=
  cbind (to_number v) (fun x => Normal (number_ltb x n)).

End Conversions.

End JS.

Import JS.

(** ** The outside world *)

(** [process.env] *)
Record environment : Type := {
  STRIPE_SECRET_KEY : option string;
  STRIPE_WEBHOOK_SECRET : option string;
  EMAIL_USER : option string;
  EMAIL_PASS : option string;
  BUSINESS_EMAIL : option string;
  NODE_ENV : option string
}.

Definition env_value (x : option string) : value :=
  match x with
  | Some s => Str s
  | None => Undefined
  end.

(** The payment provider's SDK, the mail transport and the clock. A
    promise is the completion it settles to. *)
Record services : Type := {
  stripe_paymentIntents_create : value -> completion value;
  stripe_paymentIntents_retrieve : value -> completion value;
  stripe_webhooks_constructEvent : value -> value -> value -> completion value;
  emailTransporter_sendMail : value -> completion unit;
  Date_toISOString : string;
  Date_toLocaleDateString : string
}.

(** The two HTML documents of [sendOrderEmails], as functions of the
    interpolated strings in the order they occur in the template. *)
Record templates : Type := {
  business_html : list string -> string;
  customer_html : list string -> string
}.

(** ** Effects *)

(** A call that leaves the process. *)
Inductive call : Type :=
| PaymentIntentsCreate (params : value)
| PaymentIntentsRetrieve (id : value)
| SendMail (options : value).

(** A computation: the calls it made, and how it completed. *)
Definition M (A : Type) : Type := (list call * completion A)%type.

Definition ret {A} (a : A) : M A := ([], Normal a).

Definition bind {A B} (m : M A) (k : A -> M B) : M B :=
  match m with
  | (t, Normal a) => let (t', r) := k a in ((t ++ t')%list, r)
  | (t, Throw e) => (t, Throw e)
  end.

(** A synchronous expression that may throw. *)
Definition lift {A} (c : completion A) : M A := ([], c).

(** An awaited call. *)
Definition await {A} (c : call) (settled : completion A) : M A := ([c], settled).

(** [try { m } catch (error) { h error }] *)
Definition try_catch {A} (m : M A) (h : error -> M A) : M A :=
  match m with
  | (t, Normal a) => (t, Normal a)
  | (t, Throw e) => let (t', r) := h e in ((t ++ t')%list, r)
  end.

Declare Scope js_scope.
Delimit Scope js_scope with js.
Notation "x <- m ;; k" := (bind m (fun x => k))
  (at level 61, m at next level, right associativity) : js_scope.
Notation "m ;; k" := (bind m (fun _ => k))
  (at level 61, right associativity) : js_scope.
Open Scope js_scope.

Definition trace {A} (m : M A) : list call := fst m.
Definition result {A} (m : M A) : completion A := snd m.

(** ** HTTP responses *)

Inductive payload : Type :=
| Json (v : value)      (* res.json(v): the value handed over, before serialisation *)
| Text (s : string).    (* res.send(s) *)

Record response : Type := {
  status : nat;
  body : payload
}.

(** [res.status(code).json(v)]; [res.json(v)] answers 200. *)
Definition res_status_json (code : nat) (v : value) : response :=
  {| status := code; body := Json v |}.
Definition res_json (v : value) : response := res_status_json 200 v.
Definition res_status_send (code : nat) (s : string) : response :=
  {| status := code; body := Text s |}.

(** ** The application *)

(** *** CORS configuration (lines 22-44) *)

Definition allowedOrigins : list string :=
  [ "http://localhost:5173";
    "http://localhost:3000";
    "https://pakbh.com";
    "https://www.pakbh.com";
    "https://delicate-banoffee-384c86.netlify.app";
    "https://blenhairs.netlify.app";
    "https://serveforpakbh.onrender.com" ].

(** [l.indexOf(v)]: the first index whose element is strictly equal to
    [v], or -1. *)
Fixpoint indexOf (l : list string) (v : value) : Z :=
  match l with
  | [] => -1
  | s :: l' =>
      if is_string v s then 0
      else let i := indexOf l' v in
           if (i =? -1)%Z then -1 else (i + 1)%Z
  end.

(** What the [origin] function hands to its callback:
    [callback(err, allow)]. *)
Inductive cors_decision : Type :=
| callback (err : option error) (allow : bool).

Definition cors_message : string :=
  "The CORS policy for this site does not allow access from the specified Origin.".

(** [origin] is [req.headers.origin]: a string, or [undefined] when the
    request has no such header. *)
Definition cors_origin (origin : value) : cors_decision :=
  if negb (truthy origin) then callback None true
  else if (indexOf allowedOrigins origin =? -1)%Z
       then callback (Some (mkError cors_message None)) false
       else callback None true.

(** *** Start-up (lines 13-17 and 56-76) *)

(** The process exits before serving when the key is missing. *)
Definition starts (env : environment) : bool :=
  truthy (env_value (STRIPE_SECRET_KEY env)).

(** [emailTransporter]: created once, only with both credentials. *)
Definition emailTransporter (env : environment) : value :=
  if truthy (and (env_value (EMAIL_USER env)) (env_value (EMAIL_PASS env)))
  then literal
         [ ("service", Str "gmail");
           ("auth", literal [ ("user", env_value (EMAIL_USER env));
                              ("pass", env_value (EMAIL_PASS env)) ]) ]
  else Undefined.

Section Server.

Variable rt : builtins.
Variable sv : services.
Variable tpl : templates.

(** *** sendOrderEmails (lines 273-384) *)

(** The normalized order summary of lines 276-292. *)
Record summary : Type := {
  customerEmail : value;
  customerName : value;
  amount : value;
  paymentId : value;
  paymentMethod : string
}.

Definition summarize (paymentData customer totalAmount : value)
  : completion summary :=
  cbind (get paymentData "object") (fun object =>
  if is_string object "payment_intent" then
    (* Stripe payment *)
    cbind (get paymentData "receipt_email") (fun receipt_email =>
    cbind (get paymentData "metadata") (fun metadata =>
    cbind (get_opt metadata "customer_email") (fun customer_email =>
    cbind (get_opt metadata "customer_name") (fun customer_name =>
    cbind (get paymentData "amount") (fun cents =>
    cbind (to_number rt cents) (fun n =>
    cbind (get paymentData "id") (fun id =>
    Normal {| customerEmail := or receipt_email customer_email;
              customerName := or customer_name (Str "Customer");
              amount := Str (toFixed2 rt (divide rt n (of_Z 100)));
              paymentId := id;
              paymentMethod := "Credit Card (Stripe)" |})))))))
  else
    (* PayPal payment *)
    cbind (get_opt customer "email") (fun email =>
    cbind (get paymentData "payer") (fun payer =>
    cbind (get_opt payer "email_address") (fun email_address =>
    cbind (get_opt customer "name") (fun name =>
    cbind (if nullish totalAmount then Normal Undefined
           else call_toFixed2 rt "totalAmount" totalAmount) (fun fixed =>
    cbind (get paymentData "amount") (fun amount_field =>
    cbind (get_opt amount_field "value") (fun amount_value =>
    cbind (get paymentData "id") (fun id =>
    Normal {| customerEmail := or email email_address;
              customerName := or name (Str "Customer");
              amount := or fixed amount_value;
              paymentId := id;
              paymentMethod := "PayPal" |}))))))))).

Definition default_business_email : string := "anaroyes7@gmail.com".

Definition businessEmailOptions (env : environment) (s : summary)
  : completion value :=
  cbind (to_string rt (paymentId s)) (fun id =>
  cbind (to_string rt (amount s)) (fun amt =>
  cbind (to_string rt (customerName s)) (fun name =>
  cbind (to_string rt (customerEmail s)) (fun email =>
  Normal (literal
    [ ("from", env_value (EMAIL_USER env));
      ("to", or (env_value (BUSINESS_EMAIL env)) (Str default_business_email));
      ("subject", Str ("New Order - Payment " ++ id));
      ("html", Str (business_html tpl
                      [id; amt; paymentMethod s; name; email;
                       Date_toLocaleDateString sv])) ]))))).

Definition customerEmailOptions (env : environment) (s : summary)
  : completion value :=
  cbind (to_string rt (paymentId s)) (fun id =>
  cbind (to_string rt (customerName s)) (fun name =>
  cbind (to_string rt (amount s)) (fun amt =>
  Normal (literal
    [ ("from", env_value (EMAIL_USER env));
      ("to", customerEmail s);
      ("subject", Str ("Order Confirmation - Payment " ++ id));
      ("html", Str (customer_html tpl [id; name; amt; paymentMethod s])) ])))).

(** [Promise.all([sendMail(b), sendMail(c)])]: both calls are made
    before either is awaited; the first rejection is the outcome. *)
Definition send_both (b c : value) : M unit :=
  ([SendMail b; SendMail c],
   cbind (emailTransporter_sendMail sv b)
     (fun _ => emailTransporter_sendMail sv c)).

Definition sendOrderEmails (env : environment)
    (paymentData customer items totalAmount : value) : M unit :=
  let customer := default customer Null in
  let items := default items Null in
  let totalAmount := default totalAmount Null in
  try_catch
    (s <- lift (summarize paymentData customer totalAmount) ;;
     if negb (truthy (customerEmail s)) then ret tt
     else
       b <- lift (businessEmailOptions env s) ;;
       c <- lift (customerEmailOptions env s) ;;
       _ <- lift (get (emailTransporter env) "sendMail") ;;
       send_both b c)
    (fun error => ret tt).

(** *** POST /api/create-payment-intent (lines 79-124) *)

Definition invalid_amount : value :=
  literal [ ("error", Str "Invalid amount");
            ("details", Str "Amount must be at least $0.50") ].

(** [items?.length?.toString() || '0'] *)
Definition items_count (items : value) : completion value :=
  cbind (get_opt items "length") (fun len =>
  cbind (if nullish len then Normal Undefined
         else cbind (to_string rt len) (fun s => Normal (Str s))) (fun s =>
  Normal (or s (Str "0")))).

Definition description : string :=
  "Premium Afro Kinky Bulk Hair - Blen Hairs USA".

Definition create_params (amount currency customer items metadata : value)
  : completion value :=
  cbind (to_number rt amount) (fun n =>
  cbind (get_opt customer "email") (fun email =>
  cbind (get_opt customer "name") (fun name =>
  cbind (items_count items) (fun count =>
  Normal (literal
    [ ("amount", Num (Math_round n));
      ("currency", currency);
      ("automatic_payment_methods", literal [ ("enabled", Boolean true) ]);
      ("metadata",
        literal (spread metadata ++
                 [ ("customer_email", or email (Str ""));
                   ("customer_name", or name (Str ""));
                   ("items_count", count) ])%list);
      ("receipt_email", email);
      ("description", Str description) ]))))).

Definition create_payment_intent (req_body : value) : M response :=
  try_catch
    (amount <- lift (get req_body "amount") ;;
     currency <- lift (get req_body "currency") ;;
     customer <- lift (get req_body "customer") ;;
     items <- lift (get req_body "items") ;;
     metadata <- lift (get req_body "metadata") ;;
     let currency := default currency (Str "usd") in
     (* Validate amount *)
     invalid <- lift (if negb (truthy amount) then Normal true
                      else less_than rt amount (of_Z 50)) ;;
     if invalid : bool then ret (res_status_json 400 invalid_amount)
     else
       (* Create payment intent *)
       params <- lift (create_params amount currency customer items metadata) ;;
       paymentIntent <- await (PaymentIntentsCreate params)
                          (stripe_paymentIntents_create sv params) ;;
       _ <- lift (get paymentIntent "id") ;;
       client_secret <- lift (get paymentIntent "client_secret") ;;
       id <- lift (get paymentIntent "id") ;;
       ret (res_json (literal [ ("success", Boolean true);
                                ("client_secret", client_secret);
                                ("payment_intent_id", id) ])))
    (fun error =>
       ret (res_status_json 500
              (literal
                 [ ("success", Boolean false);
                   ("error", or (Str (message error))
                                (Str "Failed to create payment intent"));
                   ("code", or (env_value (type error))
                               (Str "unknown_error")) ]))).

(** *** POST /api/process-paypal-payment (lines 127-178) *)

Definition missing_payment_information : value :=
  literal [ ("success", Boolean false);
            ("error", Str "Missing required payment information") ].

Definition paypalPayment (orderID payerID email : value) (fixed : value)
  : value :=
  literal
    [ ("id", orderID);
      ("status", Str "COMPLETED");
      ("amount", literal [ ("currency_code", Str "USD"); ("value", fixed) ]);
      ("payer", literal [ ("payer_id", payerID); ("email_address", email) ]);
      ("create_time", Str (Date_toISOString sv));
      ("payment_method", Str "PayPal") ].

Definition process_paypal_payment (env : environment) (req_body : value)
  : M response :=
  try_catch
    (orderID <- lift (get req_body "orderID") ;;
     payerID <- lift (get req_body "payerID") ;;
     amount <- lift (get req_body "amount") ;;
     customer <- lift (get req_body "customer") ;;
     items <- lift (get req_body "items") ;;
     (* Validate required fields *)
     if negb (truthy orderID) || negb (truthy payerID) || negb (truthy amount)
     then ret (res_status_json 400 missing_payment_information)
     else
       fixed <- lift (call_toFixed2 rt "amount" amount) ;;
       email <- lift (get_opt customer "email") ;;
       let payment := paypalPayment orderID payerID email fixed in
       (* Send confirmation emails if email is configured *)
       (if truthy (emailTransporter env)
        then sendOrderEmails env payment customer items amount
        else ret tt) ;;
       ret (res_json (literal [ ("success", Boolean true);
                                ("payment", payment) ])))
    (fun error =>
       ret (res_status_json 500
              (literal
                 [ ("success", Boolean false);
                   ("error", or (Str (message error))
                                (Str "Failed to process PayPal payment")) ]))).

(** *** POST /api/confirm-payment (lines 181-221) *)

Definition confirm_payment (env : environment) (req_body : value)
  : M response :=
  try_catch
    (payment_intent_id <- lift (get req_body "payment_intent_id") ;;
     if negb (truthy payment_intent_id)
     then ret (res_status_json 400
                 (literal [ ("success", Boolean false);
                            ("error", Str "Payment intent ID is required") ]))
     else
       paymentIntent <- await (PaymentIntentsRetrieve payment_intent_id)
                          (stripe_paymentIntents_retrieve sv payment_intent_id) ;;
       st <- lift (get paymentIntent "status") ;;
       if is_string st "succeeded" then
         (* Send confirmation emails if email is configured *)
         (if truthy (emailTransporter env)
          then sendOrderEmails env paymentIntent Undefined Undefined Undefined
          else ret tt) ;;
         ret (res_json (literal [ ("success", Boolean true);
                                  ("payment_intent", paymentIntent) ]))
       else
         shown <- lift (to_string rt st) ;;
         ret (res_json (literal [ ("success", Boolean false);
                                  ("status", st);
                                  ("message", Str ("Payment status is " ++ shown)) ])))
    (fun error =>
       ret (res_status_json 500
              (literal
                 [ ("success", Boolean false);
                   ("error", or (Str (message error))
                                (Str "Failed to confirm payment")) ]))).

(** *** POST /api/webhook (lines 224-270) *)

(** The [switch] on [event.type] of lines 245-263. *)
Definition dispatch (env : environment) (event : value) : M unit :=
  event_type <- lift (get event "type") ;;
  if is_string event_type "payment_intent.succeeded" then
    data <- lift (get event "data") ;;
    paymentIntent <- lift (get data "object") ;;
    _ <- lift (get paymentIntent "id") ;;
    (* Send confirmation emails if email is configured *)
    if truthy (emailTransporter env)
    then sendOrderEmails env paymentIntent Undefined Undefined Undefined
    else ret tt
  else if is_string event_type "payment_intent.payment_failed" then
    data <- lift (get event "data") ;;
    failedPayment <- lift (get data "object") ;;
    _ <- lift (get failedPayment "id") ;;
    ret tt
  else
    _ <- lift (to_string rt event_type) ;;
    ret tt.

(** [sig] is [req.headers['stripe-signature']], [req_body] the raw
    body. *)
Definition webhook (env : environment) (sig req_body : value) : M response :=
  let webhookSecret := env_value (STRIPE_WEBHOOK_SECRET env) in
  (* Check if webhook secret is configured *)
  if negb (truthy webhookSecret)
  then ret (res_status_json 500
              (literal [ ("error", Str "Webhook secret not configured") ]))
  else
    match stripe_webhooks_constructEvent sv req_body sig webhookSecret with
    | Throw err =>
        ret (res_status_send 400 ("Webhook Error: " ++ message err))
    | Normal event =>
        (* Handle the event *)
        try_catch
          (dispatch env event ;;
           ret (res_json (literal [ ("received", Boolean true) ])))
          (fun error =>
             ret (res_status_json 500
                    (literal [ ("error", Str "Failed to process webhook event") ])))
    end.

(** *** GET /api/health (lines 387-401) *)

Definition health (env : environment) : response :=
  res_json
    (literal
       [ ("status", Str "OK");
         ("timestamp", Str (Date_toISOString sv));
         ("market", Str "United States");
         ("location", Str "Miami, FL");
         ("stripe_connected", Boolean true);
         ("stripe_key_configured",
           Boolean (truthy (env_value (STRIPE_SECRET_KEY env))));
         ("email_configured",
           Boolean (truthy (and (env_value (EMAIL_USER env))
                                (env_value (EMAIL_PASS env)))));
         ("environment", or (env_value (NODE_ENV env)) (Str "development"));
         ("supported_payment_methods", Arr [Str "stripe"; Str "paypal"]);
         ("shipping_zones",
           Arr [Str "US"; Str "Canada"; Str "Mexico"; Str "Caribbean";
                Str "International"]);
         ("cors_allowed_origins", Arr (map Str allowedOrigins)) ]).

(** *** GET /api/payment-intent/:id (lines 404-426) *)

Definition get_payment_intent (req_params : value) : M response :=
  try_catch
    (id <- lift (get req_params "id") ;;
     paymentIntent <- await (PaymentIntentsRetrieve id)
                        (stripe_paymentIntents_retrieve sv id) ;;
     pid <- lift (get paymentIntent "id") ;;
     st <- lift (get paymentIntent "status") ;;
     amt <- lift (get paymentIntent "amount") ;;
     currency <- lift (get paymentIntent "currency") ;;
     created <- lift (get paymentIntent "created") ;;
     payment_method <- lift (get paymentIntent "payment_method") ;;
     ret (res_json (literal [ ("success", Boolean true);
                              ("id", pid);
                              ("status", st);
                              ("amount", amt);
                              ("currency", currency);
                              ("created", created);
                              ("payment_method", payment_method) ])))
    (fun error =>
       ret (res_status_json 500
              (literal
                 [ ("success", Boolean false);
                   ("error", or (Str (message error))
                                (Str "Failed to retrieve payment intent")) ]))).

(** *** 404 handler for API routes (lines 429-434) *)

Definition api_not_found : response :=
  res_status_json 404
    (literal [ ("success", Boolean false);
               ("error", Str "API endpoint not found") ]).

(** *** Error handling middleware (lines 437-444) *)

Definition error_middleware (env : environment) (err : error) : response :=
  res_status_json 500
    (literal
       [ ("success", Boolean false);
         ("error", Str "Internal server error");
         ("message",
           if is_string (env_value (NODE_ENV env)) "development"
           then Str (message err)
           else Str "Something went wrong") ]).

(** The answer to a request the CORS gate refuses: the [cors]
    middleware passes the callback's error to [next], and Express hands
    an error passed to [next] to the error handling middleware. [None]
    when the gate lets the request through. *)
Definition cors_rejection (env : environment) (origin : value)
  : option response :=
  match cors_origin origin with
  | callback (Some err) _ => Some (error_middleware env err)
  | callback None _ => None
  end.

End Server.

(** ** A sample world for the examples

    Exact arithmetic stands in for the binary64 operations; the
    provider accepts every request and the mailer every message. *)

Module Sample.

Definition number_to_string (n : number) : string :=
  match n with
  | NaN => "NaN"
  | Infinity false => "Infinity"
  | Infinity true => "-Infinity"
  | Finite q =>
      if (Z.pos (Qden (Qred q)) =? 1)%Z
      then (if Qle_bool 0%Q q then "" else "-") ++ digits (Z.abs (Qnum (Qred q)))
      else fixed2 q
  end.

Definition string_to_number (s : string) : number :=
  match NilZero.uint_of_string s with
  | Some u => of_Z (Z.of_N (N.of_uint u))
  | None => NaN
  end.

Definition divide (x y : number) : number :=
  match x, y with
  | Finite a, Finite b => if is_zero b then NaN else Finite (Qred (a / b)%Q)
  | _, _ => NaN
  end.

Definition rt : builtins :=
  {| JS.number_to_string := number_to_string;
     JS.string_to_number := string_to_number;
     JS.divide := divide |}.

Definition intent (id st : string) (email : value) : value :=
  Obj [ ("id", Str id);
        ("object", Str "payment_intent");
        ("client_secret", Str (id ++ "_secret"));
        ("status", Str st);
        ("amount", Num (of_Z 1999));
        ("receipt_email", email) ].

Definition signature_error : error :=
  mkError "No signatures found matching the expected signature for payload"
          (Some "StripeSignatureVerificationError").

(** The provider: every created or retrieved intent is [pi_1] with the
    given status; an event is valid when its signature is "good", and
    is then the request body itself. *)
Definition sv (st : string) : services :=
  {| stripe_paymentIntents_create := fun _ =>
       Normal (intent "pi_1" "requires_payment_method" Null);
     stripe_paymentIntents_retrieve := fun _ =>
       Normal (intent "pi_1" st (Str "a@b.com"));
     stripe_webhooks_constructEvent := fun body sig _ =>
       if is_string sig "good" then Normal body else Throw signature_error;
     emailTransporter_sendMail := fun _ => Normal tt;
     Date_toISOString := "2024-01-01T00:00:00.000Z";
     Date_toLocaleDateString := "1/1/2024" |}.

Definition tpl : templates :=
  {| business_html := String.concat "|";
     customer_html := String.concat "|" |}.

Definition env : environment :=
  {| STRIPE_SECRET_KEY := Some "sk_test_1";
     STRIPE_WEBHOOK_SECRET := Some "whsec_1";
     EMAIL_USER := Some "shop@example.com";
     EMAIL_PASS := Some "app-password";
     BUSINESS_EMAIL := None;
     NODE_ENV := None |}.

(** The same deployment without e-mail credentials. *)
Definition env_no_email : environment :=
  {| STRIPE_SECRET_KEY := Some "sk_test_1";
     STRIPE_WEBHOOK_SECRET := Some "whsec_1";
     EMAIL_USER := None;
     EMAIL_PASS := None;
     BUSINESS_EMAIL := None;
     NODE_ENV := None |}.

(** The binary64 number written [19.99]. *)
Definition n_19_99 : number :=
  Finite (5626684784446013 # 281474976710656)%Q.

Definition event (event_type st : string) (email : value) : value :=
  Obj [ ("id", Str "evt_1");
        ("type", Str event_type);
        ("data", Obj [ ("object", intent "pi_1" st email) ]) ].

(** The provider with every intent "succeeded". *)
Definition world : services := sv "succeeded".

(** A request without [payerID]. *)
Definition paypal_no_payer : list (string * value) :=
  [ ("orderID", Str "O1"); ("amount", Num (of_Z 25)) ].

(** The request of the specification's example. *)
Definition paypal_19_99 : list (string * value) :=
  [ ("orderID", Str "O1");
    ("payerID", Str "P1");
    ("amount", Num n_19_99);
    ("customer", Obj [ ("email", Str "a@b.com") ]) ].

Definition paypal_zero : list (string * value) :=
  [ ("orderID", Str "O1"); ("payerID", Str "P1"); ("amount", Num (of_Z 0)) ].

Definition paypal_string : list (string * value) :=
  [ ("orderID", Str "O1"); ("payerID", Str "P1"); ("amount", Str "19.99") ].

(** The request of the specification's example. *)
Definition intent_25 : list (string * value) :=
  [ ("amount", Num (of_Z 25)); ("currency", Str "usd") ].

(** 50.5 minor units, for two items. *)
Definition intent_50_5 : list (string * value) :=
  [ ("amount", Num (Finite (101 # 2)));
    ("items", Arr [Str "bundle"; Str "closure"]) ].

Definition succeeded_event : value :=
  event "payment_intent.succeeded" "succeeded" (Str "a@b.com").

Definition failed_event : value :=
  event "payment_intent.payment_failed" "requires_payment_method" (Str "a@b.com").

Definition confirm_pi_1 : list (string * value) :=
  [ ("payment_intent_id", Str "pi_1") ].

(** Another deployment: every secret differs, the clock too. *)
Definition other_env : environment :=
  {| STRIPE_SECRET_KEY := Some "sk_live_9";
     STRIPE_WEBHOOK_SECRET := Some "whsec_9";
     EMAIL_USER := Some "orders@example.org";
     EMAIL_PASS := Some "another-password";
     BUSINESS_EMAIL := Some "owner@example.org";
     NODE_ENV := None |}.

Definition other_world : services :=
  {| stripe_paymentIntents_create := stripe_paymentIntents_create world;
     stripe_paymentIntents_retrieve := stripe_paymentIntents_retrieve world;
     stripe_webhooks_constructEvent := stripe_webhooks_constructEvent world;
     emailTransporter_sendMail := emailTransporter_sendMail world;
     Date_toISOString := "2025-06-30T12:00:00.000Z";
     Date_toLocaleDateString := "6/30/2025" |}.

(** Errors of the provider and of the mailer. *)
Definition card_declined : error :=
  mkError "Your card was declined." (Some "card_error").

Definition no_such_intent : error :=
  mkError "No such payment_intent: 'pi_0'" (Some "invalid_request_error").

Definition invalid_login : error := mkError "Invalid login" None.

(** The provider refusing every charge and every retrieval. *)
Definition provider_down : services :=
  {| stripe_paymentIntents_create := fun _ => Throw card_declined;
     stripe_paymentIntents_retrieve := fun _ => Throw no_such_intent;
     stripe_webhooks_constructEvent := stripe_webhooks_constructEvent world;
     emailTransporter_sendMail := emailTransporter_sendMail world;
     Date_toISOString := Date_toISOString world;
     Date_toLocaleDateString := Date_toLocaleDateString world |}.

(** The mailer rejecting every message. *)
Definition mailer_down : services :=
  {| stripe_paymentIntents_create := stripe_paymentIntents_create world;
     stripe_paymentIntents_retrieve := stripe_paymentIntents_retrieve world;
     stripe_webhooks_constructEvent := stripe_webhooks_constructEvent world;
     emailTransporter_sendMail := fun _ => Throw invalid_login;
     Date_toISOString := Date_toISOString world;
     Date_toLocaleDateString := Date_toLocaleDateString world |}.

Definition env_no_secret : environment :=
  {| STRIPE_SECRET_KEY := Some "sk_test_1";
     STRIPE_WEBHOOK_SECRET := None;
     EMAIL_USER := Some "shop@example.com";
     EMAIL_PASS := Some "app-password";
     BUSINESS_EMAIL := None;
     NODE_ENV := None |}.

Definition env_development : environment :=
  {| STRIPE_SECRET_KEY := Some "sk_test_1";
     STRIPE_WEBHOOK_SECRET := Some "whsec_1";
     EMAIL_USER := Some "shop@example.com";
     EMAIL_PASS := Some "app-password";
     BUSINESS_EMAIL := None;
     NODE_ENV := Some "development" |}.

(** The fields of [intent id st email]. *)
Definition intent_fields (id st : string) (email : value)
  : list (string * value) :=
  [ ("id", Str id);
    ("object", Str "payment_intent");
    ("client_secret", Str (id ++ "_secret"));
    ("status", Str st);
    ("amount", Num (of_Z 1999));
    ("receipt_email", email) ].

(** A succeeded intent without any customer e-mail. *)
Definition event_without_email : value :=
  event "payment_intent.succeeded" "succeeded" Null.

Definition refund_event : value :=
  event "charge.refunded" "succeeded" (Str "a@b.com").

(** A failed-payment event whose [data] has no [object]. *)
Definition event_without_object : value :=
  Obj [ ("id", Str "evt_2");
        ("type", Str "payment_intent.payment_failed");
        ("data", Obj []) ].

(** A complete order: customer, two items, and caller metadata that
    tries to set [customer_email]. *)
Definition customer_ada : value :=
  Obj [ ("email", Str "a@b.com"); ("name", Str "Ada") ].

Definition caller_metadata : value :=
  Obj [ ("order", Str "42"); ("customer_email", Str "spoof@example.net") ].

Definition intent_full : list (string * value) :=
  [ ("amount", Num (Finite (101 # 2)));
    ("customer", customer_ada);
    ("items", Arr [Str "bundle"; Str "closure"]);
    ("metadata", caller_metadata) ].

(** The charge request built for [intent_full]. *)
Definition params_full : value :=
  match create_params rt (Num (Finite (101 # 2))) (Str "usd") customer_ada
          (Arr [Str "bundle"; Str "closure"]) caller_metadata with
  | Normal p => p
  | Throw _ => Undefined
  end.

Definition field (v : value) (k : string) : value :=
  match get v k with
  | Normal x => x
  | Throw _ => Undefined
  end.

(** The intent the provider creates for a charge request: it carries
    the request's amount, receipt e-mail and metadata. *)
Definition echo (params : value) : list (string * value) :=
  [ ("id", Str "pi_2");
    ("object", Str "payment_intent");
    ("status", Str "succeeded");
    ("amount", field params "amount");
    ("receipt_email", field params "receipt_email");
    ("metadata", field params "metadata") ].

(** The amount sent as a string. *)
Definition intent_string : list (string * value) :=
  [ ("amount", Str "75") ].

Definition paypal_no_customer : list (string * value) :=
  [ ("orderID", Str "O1"); ("payerID", Str "P1"); ("amount", Num (of_Z 25)) ].

(** What the notifier makes of [echo params_full]. *)
Definition echo_summary : summary :=
  {| customerEmail := Str "a@b.com";
     customerName := Str "Ada";
     amount := Str "0.51";
     paymentId := Str "pi_2";
     paymentMethod := "Credit Card (Stripe)" |}.

(** The acknowledgement of the webhook. *)
Definition received : response :=
  res_status_json 200 (literal [ ("received", Boolean true) ]).

(** The charge request built for [intent_50_5]. *)
Definition params_50_5 : value :=
  match create_params rt (Num (Finite (101 # 2))) (Str "usd") Undefined
          (Arr [Str "bundle"; Str "closure"]) Undefined with
  | Normal p => p
  | Throw _ => Undefined
  end.

(** All three fields present, the order id empty, the amount a string. *)
Definition paypal_empty_order : list (string * value) :=
  [ ("orderID", Str ""); ("payerID", Str "P1"); ("amount", Str "19.99") ].

End Sample.

(** ** Observations on requests, traces and responses *)

(** The parsed body has an own field [k]. *)
Definition present (req_body : value) (k : string) : bool :=
  match req_body with
  | Obj fs => has_own fs k
  | _ => false
  end.

Definition is_mail (c : call) : Prop :=
  match c with
  | SendMail _ => True
  | _ => False
  end.

(** The JSON body of a response, [undefined] for a text body. *)
Definition json_body (r : response) : value :=
  match body r with
  | Json v => v
  | Text _ => Undefined
  end.

(** [v.k1.k2] *)
Definition get2 (v : value) (k1 k2 : string) : completion value :=
  cbind (get v k1) (fun x => get x k2).

(** The response body with its [timestamp] field removed. *)
Definition without_timestamp (r : response) : payload :=
  match body r with
  | Json (Obj fs) => Json (Obj (remove fs "timestamp"))
  | b => b
  end.

(** An environment variable is set to a non-empty string. *)
Definition configured (x : option string) : bool := truthy (env_value x).

(** A trace without any call, or with exactly two mail sends. *)
Definition no_calls_or_two_mails (t : list call) : Prop :=
  t = [] \/ exists b m, t = [SendMail b; SendMail m].

(** * Properties *)

Ltac run := cbv [bind lift ret try_catch await result trace]; simpl.

Section Properties.

Variable rt : builtins.
Variable sv : services.
Variable tpl : templates.

Lemma lookup_missing fs k : has_own fs k = false -> lookup fs k = Undefined.
Proof.
  induction fs as [|[k' v] fs IH]; simpl; [reflexivity|].
  destruct (k' =? k); simpl; [discriminate | exact IH].
Qed.

(** [sendOrderEmails] never throws, and it either sends nothing or
    makes exactly the two [sendMail] calls. *)
Lemma sendOrderEmails_outcome env pd c i t :
  sendOrderEmails rt sv tpl env pd c i t = ([], Normal tt) \/
  exists s b m,
    summarize rt pd (default c Null) (default t Null) = Normal s /\
    truthy (customerEmail s) = true /\
    businessEmailOptions rt sv tpl env s = Normal b /\
    customerEmailOptions rt tpl env s = Normal m /\
    truthy (emailTransporter env) = true /\
    sendOrderEmails rt sv tpl env pd c i t
      = ([SendMail b; SendMail m], Normal tt).
Proof.
  unfold sendOrderEmails.
  destruct (summarize rt pd (default c Null) (default t Null)) as [s|e] eqn:Es;
    cbv [bind lift ret try_catch]; [|now left].
  destruct (truthy (customerEmail s)) eqn:Et; simpl; [|now left].
  destruct (businessEmailOptions rt sv tpl env s) as [b|e] eqn:Eb; [|now left].
  destruct (customerEmailOptions rt tpl env s) as [m|e] eqn:Em; [|now left].
  unfold emailTransporter.
  destruct (truthy (and (env_value (EMAIL_USER env)) (env_value (EMAIL_PASS env))))
    eqn:Ec; simpl; [|now left].
  right. exists s, b, m. repeat split; try assumption.
  unfold send_both.
  destruct (emailTransporter_sendMail sv b); simpl; [|reflexivity].
  destruct (emailTransporter_sendMail sv m) as [[]|]; reflexivity.
Qed.

Lemma sendOrderEmails_mails env pd c i t :
  result (sendOrderEmails rt sv tpl env pd c i t) = Normal tt /\
  Forall is_mail (trace (sendOrderEmails rt sv tpl env pd c i t)).
Proof.
  destruct (sendOrderEmails_outcome env pd c i t)
    as [E | (s & b & m & _ & _ & _ & _ & _ & E)]; rewrite E; simpl.
  - split; [reflexivity | constructor].
  - split; [reflexivity | repeat constructor].
Qed.

(** When the transporter exists, the summary has a customer e-mail
    and both messages can be composed, the two messages are sent. *)
Lemma sendOrderEmails_sends env pd c i t s b m :
  truthy (emailTransporter env) = true ->
  summarize rt pd (default c Null) (default t Null) = Normal s ->
  truthy (customerEmail s) = true ->
  businessEmailOptions rt sv tpl env s = Normal b ->
  customerEmailOptions rt tpl env s = Normal m ->
  sendOrderEmails rt sv tpl env pd c i t = ([SendMail b; SendMail m], Normal tt).
Proof.
  intros Ht Hs He Hb Hm.
  destruct (sendOrderEmails_outcome env pd c i t)
    as [E | (s' & b' & m' & Hs' & _ & Hb' & Hm' & _ & E)].
  - exfalso. revert E. unfold sendOrderEmails. rewrite Hs.
    cbv [bind lift ret try_catch]. rewrite He; simpl. rewrite Hb, Hm.
    revert Ht. unfold emailTransporter.
    destruct (truthy (and _ _)); simpl; [intros _ | discriminate].
    unfold send_both.
    destruct (emailTransporter_sendMail sv b); simpl; [|discriminate].
    destruct (emailTransporter_sendMail sv m); discriminate.
  - rewrite Hs in Hs'. injection Hs' as <-.
    rewrite Hb in Hb'. injection Hb' as <-.
    rewrite Hm in Hm'. injection Hm' as <-. exact E.
Qed.

(** Without a transporter [sendOrderEmails] makes no call at all: the
    guard [if (emailTransporter)] of the handlers skips nothing that
    could be observed. *)
Lemma sendOrderEmails_without_transporter env pd c i t :
  truthy (emailTransporter env) = false ->
  trace (sendOrderEmails rt sv tpl env pd c i t) = [].
Proof.
  intros Ht.
  destruct (sendOrderEmails_outcome env pd c i t)
    as [E | (s & b & m & _ & _ & _ & _ & Ht' & _)].
  - rewrite E. reflexivity.
  - rewrite Ht in Ht'. discriminate.
Qed.

Lemma get_opt_total v k : exists x, get_opt v k = Normal x.
Proof. unfold get_opt. destruct v; simpl; eauto. Qed.

Lemma geb_not_ltb n m : number_geb n m = true -> number_ltb n m = false.
Proof.
  unfold number_geb. destruct n as [| |a], m as [| |b]; try discriminate;
    intros H; apply negb_true_iff in H; exact H.
Qed.

Lemma geb_50_truthy n : number_geb n (of_Z 50) = true -> truthy (Num n) = true.
Proof.
  destruct n as [| s |q]; simpl; try discriminate; [reflexivity|].
  unfold number_geb, number_ltb, of_Z. intros H.
  apply negb_true_iff, negb_false_iff in H. apply Qle_bool_iff in H.
  unfold is_zero. apply negb_true_iff, Z.eqb_neq. intros Hz.
  unfold Qle, inject_Z in H. simpl in H. rewrite Hz in H. lia.
Qed.

(** The fraction printed by [fixed2] has exactly two digits. *)
Lemma two_digits_length z :
  (0 <= z < 100)%Z -> String.length (two_digits z) = 2.
Proof.
  intros Hz. replace z with (Z.of_nat (Z.to_nat z)) by lia.
  assert (Hn : Z.to_nat z < 100) by lia.
  generalize dependent (Z.to_nat z). intros n Hn.
  do 100 (destruct n as [|n]; [reflexivity|]). lia.
Qed.

Lemma fixed2_two_decimals q :
  exists sign whole fraction,
    fixed2 q = sign ++ whole ++ "." ++ fraction
    /\ String.length fraction = 2.
Proof.
  exists (if Qle_bool 0%Q q then "" else "-"),
         (digits (hundredths (Qabs q) / 100)),
         (two_digits (hundredths (Qabs q) mod 100)).
  split; [reflexivity|].
  apply two_digits_length, Z.mod_pos_bound. lia.
Qed.

(** ** POST /api/process-paypal-payment *)

(** C1 (as amended). A request whose [orderID], [payerID] or [amount]
    is missing or otherwise falsy is answered 400 with "Missing
    required payment information" and nothing else happens. A request
    whose [orderID] and [payerID] are truthy and whose [amount] is a
    truthy number is answered 200 with [success: true] and a payment
    record whose [id] is the caller's [orderID], whose [status] is
    "COMPLETED" and whose [amount.value] is [amount.toFixed(2)] (the
    two-decimal rendering below 10^21); the payment provider is never
    called, the only calls made are mail sends. *)
Theorem process_paypal_payment_validates env fs :
  (has_own fs "orderID" = false \/ has_own fs "payerID" = false
     \/ has_own fs "amount" = false ->
   process_paypal_payment rt sv tpl env (Obj fs)
     = ([], Normal (res_status_json 400
                      (literal [ ("success", Boolean false);
                                 ("error", Str "Missing required payment information") ]))))
  /\
  (truthy (lookup fs "orderID") && truthy (lookup fs "payerID")
     && truthy (lookup fs "amount") = false ->
   process_paypal_payment rt sv tpl env (Obj fs)
     = ([], Normal (res_status_json 400 missing_payment_information)))
  /\
  (forall n,
     truthy (lookup fs "orderID") = true ->
     truthy (lookup fs "payerID") = true ->
     lookup fs "amount" = Num n ->
     truthy (Num n) = true ->
     exists email payment,
       get_opt (lookup fs "customer") "email" = Normal email
       /\ payment = paypalPayment sv (lookup fs "orderID") (lookup fs "payerID")
                      email (Str (toFixed2 rt n))
       /\ result (process_paypal_payment rt sv tpl env (Obj fs))
          = Normal (res_status_json 200
                      (literal [ ("success", Boolean true);
                                 ("payment", payment) ]))
       /\ get payment "id" = Normal (lookup fs "orderID")
       /\ get payment "status" = Normal (Str "COMPLETED")
       /\ get2 payment "amount" "value" = Normal (Str (toFixed2 rt n))
       /\ (forall q, n = Finite q -> Qle_bool ten_pow_21 (Qabs q) = false ->
           toFixed2 rt n = fixed2 q)
       /\ Forall is_mail (trace (process_paypal_payment rt sv tpl env (Obj fs)))).
Proof.
  assert (Hfalsy :
    truthy (lookup fs "orderID") && truthy (lookup fs "payerID")
      && truthy (lookup fs "amount") = false ->
    process_paypal_payment rt sv tpl env (Obj fs)
      = ([], Normal (res_status_json 400 missing_payment_information))).
  { intros H. unfold process_paypal_payment. run.
    destruct (truthy (lookup fs "orderID")), (truthy (lookup fs "payerID")),
      (truthy (lookup fs "amount")); simpl in *; try discriminate; reflexivity. }
  split; [|split; [exact Hfalsy|]].
  - intros H. apply Hfalsy.
    destruct H as [H | [H | H]]; rewrite (lookup_missing _ _ H); simpl;
      rewrite ?andb_false_r; reflexivity.
  - intros n Ho Hp Ha Hn.
    destruct (get_opt_total (lookup fs "customer") "email") as [email Hemail].
    exists email, (paypalPayment sv (lookup fs "orderID") (lookup fs "payerID")
                     email (Str (toFixed2 rt n))).
    split; [exact Hemail|]. split; [reflexivity|].
    unfold process_paypal_payment.
    cbv [bind lift ret try_catch result trace]. simpl get.
    cbv iota beta. rewrite Ho, Hp, Ha, Hn. simpl orb. cbv iota.
    simpl call_toFixed2. cbv iota beta. rewrite Hemail. cbv iota beta.
    destruct (truthy (emailTransporter env)).
    + destruct (sendOrderEmails_mails env
                  (paypalPayment sv (lookup fs "orderID") (lookup fs "payerID")
                     email (Str (toFixed2 rt n)))
                  (lookup fs "customer") (lookup fs "items") (Num n)) as [Hr Ht].
      destruct (sendOrderEmails _ _ _ _ _ _ _ _) as [t r]. simpl in Hr, Ht. subst r.
      simpl. repeat split; try reflexivity.
      * intros q -> Hq. simpl. rewrite Hq. reflexivity.
      * rewrite app_nil_r. exact Ht.
    + simpl. repeat split; try reflexivity.
      * intros q -> Hq. simpl. rewrite Hq. reflexivity.
      * constructor.
Qed.

(** C10 (as amended). When [orderID] and [payerID] are truthy (not
    merely present) and [amount] is a truthy value that is not a number,
    validation passes, building the record throws at
    [amount.toFixed(2)], and the answer is 500 with [success: false]:
    neither the 400 validation error nor the 200 success response.
    Nothing is sent. *)
Theorem process_paypal_payment_non_number env fs :
  truthy (lookup fs "orderID") = true ->
  truthy (lookup fs "payerID") = true ->
  truthy (lookup fs "amount") = true ->
  (forall n, lookup fs "amount" <> Num n) ->
  process_paypal_payment rt sv tpl env (Obj fs)
    = ([], Normal (res_status_json 500
                     (literal [ ("success", Boolean false);
                                ("error", Str "amount.toFixed is not a function") ]))).
Proof.
  intros Ho Hp Ha Hn. unfold process_paypal_payment.
  cbv [bind lift ret try_catch]. simpl get. cbv iota beta.
  rewrite Ho, Hp, Ha. simpl orb. cbv iota.
  destruct (lookup fs "amount") as [| |b|n|s|l|o]; try discriminate;
    try reflexivity.
  exfalso. exact (Hn n eq_refl).
Qed.

(** ** POST /api/create-payment-intent *)

(** What the handler does once validation has passed. *)
Lemma create_payment_intent_valid fs n :
  lookup fs "amount" = Num n ->
  number_geb n (of_Z 50) = true ->
  create_payment_intent rt sv (Obj fs) =
    try_catch
      (params <- lift (create_params rt (Num n)
                         (default (lookup fs "currency") (Str "usd"))
                         (lookup fs "customer") (lookup fs "items")
                         (lookup fs "metadata")) ;;
       paymentIntent <- await (PaymentIntentsCreate params)
                          (stripe_paymentIntents_create sv params) ;;
       _ <- lift (get paymentIntent "id") ;;
       client_secret <- lift (get paymentIntent "client_secret") ;;
       id <- lift (get paymentIntent "id") ;;
       ret (res_json (literal [ ("success", Boolean true);
                                ("client_secret", client_secret);
                                ("payment_intent_id", id) ])))
      (fun error =>
         ret (res_status_json 500
                (literal
                   [ ("success", Boolean false);
                     ("error", or (Str (message error))
                                  (Str "Failed to create payment intent"));
                     ("code", or (env_value (type error))
                                 (Str "unknown_error")) ]))).
Proof.
  intros Ha Hn. unfold create_payment_intent.
  cbv [bind lift ret try_catch await]. simpl get. cbv iota beta.
  rewrite Ha, (geb_50_truthy _ Hn). simpl negb. cbv iota.
  unfold less_than. simpl to_number. simpl cbind.
  rewrite (geb_not_ltb _ _ Hn). cbv iota.
  destruct (create_params rt (Num n) _ _ _ _) as [p|]; [|reflexivity].
  destruct (stripe_paymentIntents_create sv p) as [a0|]; [|reflexivity].
  destruct (get a0 "id"); [|reflexivity].
  destruct (get a0 "client_secret"); reflexivity.
Qed.

Lemma create_params_amount a cur cust items meta p n :
  to_number rt a = Normal n ->
  create_params rt a cur cust items meta = Normal p ->
  get p "amount" = Normal (Num (Math_round n)).
Proof.
  unfold create_params. intros ->. simpl cbind.
  destruct (get_opt_total cust "email") as [e ->].
  destruct (get_opt_total cust "name") as [nm ->]. simpl cbind.
  destruct (items_count rt items); simpl; [|discriminate].
  intros H. injection H as <-. reflexivity.
Qed.

(** The validation of line 84 in general: a falsy [amount], or one
    that compares below 50, is rejected before anything is built. *)
Lemma create_payment_intent_rejects fs :
  truthy (lookup fs "amount") = false
  \/ less_than rt (lookup fs "amount") (of_Z 50) = Normal true ->
  create_payment_intent rt sv (Obj fs)
    = ([], Normal (res_status_json 400 invalid_amount)).
Proof.
  intros H. unfold create_payment_intent.
  cbv [bind lift ret try_catch await]. simpl get. cbv iota beta.
  destruct (truthy (lookup fs "amount")); simpl negb; cbv iota.
  - destruct H as [H | ->]; [discriminate | reflexivity].
  - reflexivity.
Qed.

(** C2. A request whose [amount] is missing, or is a number below 50,
    is answered 400 with error "Invalid amount" and details "Amount
    must be at least $0.50", and the payment provider is not called.
    For a request whose [amount] is a number of at least 50, a 200
    response is the answer to exactly one [paymentIntents.create]
    call that resolved, and it carries that intent's [client_secret]
    and, as [payment_intent_id], its [id]; and conversely, once the
    charge request is built and [paymentIntents.create] resolves to an
    intent, the answer is that 200 response, after that one call. *)
Theorem create_payment_intent_validates fs :
  (lookup fs "amount" = Undefined \/
   (exists n, lookup fs "amount" = Num n /\ number_ltb n (of_Z 50) = true) ->
   create_payment_intent rt sv (Obj fs)
     = ([], Normal (res_status_json 400
                      (literal [ ("error", Str "Invalid amount");
                                 ("details", Str "Amount must be at least $0.50") ]))))
  /\
  (forall n r,
     lookup fs "amount" = Num n ->
     number_geb n (of_Z 50) = true ->
     result (create_payment_intent rt sv (Obj fs)) = Normal r ->
     status r = 200 ->
     exists params paymentIntent client_secret id,
       trace (create_payment_intent rt sv (Obj fs)) = [PaymentIntentsCreate params]
       /\ stripe_paymentIntents_create sv params = Normal paymentIntent
       /\ get paymentIntent "client_secret" = Normal client_secret
       /\ get paymentIntent "id" = Normal id
       /\ body r = Json (literal [ ("success", Boolean true);
                                   ("client_secret", client_secret);
                                   ("payment_intent_id", id) ]))
  /\
  (forall n params paymentIntent,
     lookup fs "amount" = Num n ->
     number_geb n (of_Z 50) = true ->
     create_params rt (Num n) (default (lookup fs "currency") (Str "usd"))
       (lookup fs "customer") (lookup fs "items") (lookup fs "metadata")
       = Normal params ->
     stripe_paymentIntents_create sv params = Normal paymentIntent ->
     nullish paymentIntent = false ->
     exists client_secret id,
       get paymentIntent "client_secret" = Normal client_secret
       /\ get paymentIntent "id" = Normal id
       /\ create_payment_intent rt sv (Obj fs)
          = ([PaymentIntentsCreate params],
             Normal (res_status_json 200
                       (literal [ ("success", Boolean true);
                                  ("client_secret", client_secret);
                                  ("payment_intent_id", id) ])))).
Proof.
  split; [|split].
  - intros [Ha | (n & Ha & Hn)]; apply create_payment_intent_rejects; rewrite Ha.
    + left. reflexivity.
    + right. unfold less_than. simpl. rewrite Hn. reflexivity.
  - intros n r Ha Hn. rewrite (create_payment_intent_valid fs n Ha Hn).
    destruct (create_params rt (Num n) _ _ _ _) as [params|e]; run;
      [|intros H; injection H as <-; discriminate].
    destruct (stripe_paymentIntents_create sv params) as [pi|e] eqn:Ec; run;
      [|intros H; injection H as <-; discriminate].
    destruct (get pi "id") as [id|e] eqn:Eid; run;
      [|intros H; injection H as <-; discriminate].
    destruct (get pi "client_secret") as [cs|e] eqn:Ecs; run;
      [|intros H; injection H as <-; discriminate].
    intros H _. injection H as <-. exists params, pi, cs, id.
    repeat split; assumption.
  - intros n params pi Ha Hn Ep Ec Hpi.
    rewrite (create_payment_intent_valid fs n Ha Hn), Ep.
    cbv [bind lift ret try_catch await]. rewrite Ec.
    destruct pi; try discriminate Hpi; simpl;
      do 2 eexists; repeat split; reflexivity.
Qed.

Lemma create_params_normal n cur cust items meta count :
  items_count rt items = Normal count ->
  exists p, create_params rt (Num n) cur cust items meta = Normal p.
Proof.
  intros Hc. unfold create_params. simpl cbind.
  destruct (get_opt_total cust "email") as [e ->].
  destruct (get_opt_total cust "name") as [nm ->]. simpl cbind.
  rewrite Hc. simpl. eauto.
Qed.

(** [Math.round] of a finite number is the integer [z] with
    [z - 1/2 <= q < z + 1/2]. *)
Lemma Math_round_nearest q :
  (inject_Z (Qfloor (q + (1 # 2))) - (1 # 2) <= q)%Q /\
  (q < inject_Z (Qfloor (q + (1 # 2))) - (1 # 2) + 1)%Q.
Proof.
  pose proof (Qfloor_le (q + (1 # 2))%Q) as Hl.
  pose proof (Qlt_floor (q + (1 # 2))%Q) as Hu.
  rewrite inject_Z_plus in Hu.
  change (inject_Z 1) with 1%Q in Hu.
  generalize dependent (inject_Z (Qfloor (q + (1 # 2)))). intros z Hl Hu.
  split; lra.
Qed.

(** C9. For a request whose [amount] is a number of at least 50:
    the request is not rejected (no 400); every charge request that
    reaches the payment provider carries [Math.round(amount)] as its
    amount; whenever the item count can be computed exactly one such
    request is made; and for a finite amount [Math.round(amount)] is
    the nearest integer (ties upwards), so a fractional amount is
    rounded, not refused. *)
Theorem create_payment_intent_rounds fs n :
  lookup fs "amount" = Num n ->
  number_geb n (of_Z 50) = true ->
  (forall r, result (create_payment_intent rt sv (Obj fs)) = Normal r ->
             status r <> 400)
  /\ (forall params,
        In (PaymentIntentsCreate params)
           (trace (create_payment_intent rt sv (Obj fs))) ->
        get params "amount" = Normal (Num (Math_round n)))
  /\ (forall count,
        items_count rt (lookup fs "items") = Normal count ->
        exists params,
          trace (create_payment_intent rt sv (Obj fs))
            = [PaymentIntentsCreate params]
          /\ get params "amount" = Normal (Num (Math_round n)))
  /\ (forall q, n = Finite q ->
        exists z, Math_round n = of_Z z
                  /\ (inject_Z z - (1 # 2) <= q)%Q
                  /\ (q < inject_Z z - (1 # 2) + 1)%Q).
Proof.
  intros Ha Hn. rewrite (create_payment_intent_valid fs n Ha Hn).
  split; [|split; [|split]].
  - intros r.
    destruct (create_params rt (Num n) _ _ _ _) as [params|e]; run;
      [|intros H; injection H as <-; discriminate].
    destruct (stripe_paymentIntents_create sv params) as [pi|e]; run;
      [|intros H; injection H as <-; discriminate].
    destruct (get pi "id") as [id|e]; run;
      [|intros H; injection H as <-; discriminate].
    destruct (get pi "client_secret") as [cs|e]; run;
      intros H; injection H as <-; discriminate.
  - intros params.
    destruct (create_params rt (Num n) _ _ _ _) as [p|e] eqn:Ep; run;
      [|intros []].
    assert (Hp : get p "amount" = Normal (Num (Math_round n)))
      by (apply (create_params_amount (Num n) _ _ _ _ p n eq_refl Ep)).
    destruct (stripe_paymentIntents_create sv p) as [pi|e]; run.
    + destruct (get pi "id") as [id|e]; run.
      * destruct (get pi "client_secret") as [cs|e]; run;
          (intros [H|[]]; injection H as <-; exact Hp).
      * intros [H|[]]; injection H as <-; exact Hp.
    + intros [H|[]]; injection H as <-; exact Hp.
  - intros count Hc.
    destruct (create_params_normal n (default (lookup fs "currency") (Str "usd"))
                (lookup fs "customer") (lookup fs "items") (lookup fs "metadata")
                count Hc) as [p Ep].
    rewrite Ep. exists p.
    split; [|apply (create_params_amount (Num n) _ _ _ _ p n eq_refl Ep)].
    run. destruct (stripe_paymentIntents_create sv p) as [pi|e]; run;
      [|reflexivity].
    destruct (get pi "id") as [id|e]; run; [|reflexivity].
    destruct (get pi "client_secret") as [cs|e]; reflexivity.
  - intros q ->. exists (Qfloor (q + (1 # 2))). split; [reflexivity|].
    apply Math_round_nearest.
Qed.

Ltac err Herr e :=
  let m := fresh "m" in let c := fresh "c" in
  destruct (Herr e) as (m & c & ->); simpl;
  eexists; split; [reflexivity|]; right; right;
  split; [reflexivity | exists m, c; reflexivity].

(** Every response of the handler: 200, the 400 of the validation
    branch, or the 500 of the [catch] branch. *)
Lemma create_payment_intent_error_bodies req_body :
  exists r,
    result (create_payment_intent rt sv req_body) = Normal r
    /\ (status r = 200
        \/ (status r = 400 /\ body r = Json invalid_amount)
        \/ (status r = 500 /\
            exists e c, body r = Json (Obj [ ("success", Boolean false);
                                             ("error", Str e);
                                             ("code", Str c) ]))).
Proof.
  assert (Herr : forall e : error,
    exists m c, literal
                 [ ("success", Boolean false);
                   ("error", or (Str (message e))
                                (Str "Failed to create payment intent"));
                   ("code", or (env_value (type e)) (Str "unknown_error")) ]
               = Obj [ ("success", Boolean false); ("error", Str m); ("code", Str c) ]).
  { intros [m [c|]]; unfold or; simpl.
    - destruct (negb (m =? "")), (negb (c =? "")); do 2 eexists; reflexivity.
    - destruct (negb (m =? "")); do 2 eexists; reflexivity. }
  unfold create_payment_intent. cbv [bind lift ret try_catch await result].
  destruct (get req_body "amount") as [amount|e] eqn:Ea; [|err Herr e].
  destruct (get req_body "currency") as [currency|e]; [|err Herr e].
  destruct (get req_body "customer") as [customer|e]; [|err Herr e].
  destruct (get req_body "items") as [items|e]; [|err Herr e].
  destruct (get req_body "metadata") as [metadata|e]; [|err Herr e].
  destruct (if negb (truthy amount) then Normal true else less_than rt amount (of_Z 50))
    as [[|]|e]; [| |err Herr e].
  - simpl. eexists; split; [reflexivity|]. right; left. split; reflexivity.
  - destruct (create_params rt amount _ customer items metadata) as [p|e];
      [|err Herr e].
    destruct (stripe_paymentIntents_create sv p) as [pi|e]; [|err Herr e].
    destruct (get pi "id") as [id|e]; [|err Herr e].
    destruct (get pi "client_secret") as [cs|e]; [|err Herr e].
    simpl. eexists; split; [reflexivity|]. left. reflexivity.
Qed.

(** ** POST /api/webhook *)

(** C3. With a webhook secret configured, a request whose signature
    fails verification is answered 400 with the text "Webhook Error: "
    followed by the verification failure message; processing stops
    there: no call leaves the process, so no e-mail is sent, whatever
    the body (and the event type inside it) is. *)
Theorem webhook_rejects_bad_signature env sig req_body err :
  configured (STRIPE_WEBHOOK_SECRET env) = true ->
  stripe_webhooks_constructEvent sv req_body sig
    (env_value (STRIPE_WEBHOOK_SECRET env)) = Throw err ->
  webhook rt sv tpl env sig req_body
    = ([], Normal (res_status_send 400 ("Webhook Error: " ++ message err))).
Proof.
  intros Hs He. unfold webhook. unfold configured in Hs. rewrite Hs, He.
  reflexivity.
Qed.

Lemma summarize_not_nullish pd c t s :
  summarize rt pd c t = Normal s -> exists x, get pd "id" = Normal x.
Proof.
  unfold summarize. destruct pd; simpl; try discriminate; eauto.
Qed.

(** Both messages can be composed as soon as the interpolated fields
    of the summary are strings. *)
Lemma messages_compose env s id name amt email :
  paymentId s = Str id ->
  customerName s = Str name ->
  amount s = Str amt ->
  customerEmail s = Str email ->
  exists b m,
    businessEmailOptions rt sv tpl env s = Normal b
    /\ customerEmailOptions rt tpl env s = Normal m.
Proof.
  intros Hi Hn Ha He. unfold businessEmailOptions, customerEmailOptions.
  rewrite Hi, Hn, Ha, He. simpl. eauto.
Qed.

(** C4 (as amended). For a validly signed event:
    - of type "payment_intent.succeeded", when the e-mail transporter
      is configured, the intent yields a truthy customer e-mail and
      the two messages can be composed, exactly two sends are
      attempted, the business message first (to [BUSINESS_EMAIL] or
      the default address) and the customer message second (to the
      customer e-mail), and the event is acknowledged;
    - of type "payment_intent.succeeded", when the transporter is not
      configured, no send is attempted;
    - of type "payment_intent.payment_failed", no send is attempted. *)
Theorem webhook_notifies env sig req_body event :
  configured (STRIPE_WEBHOOK_SECRET env) = true ->
  stripe_webhooks_constructEvent sv req_body sig
    (env_value (STRIPE_WEBHOOK_SECRET env)) = Normal event ->
  (forall paymentIntent s b m,
     get event "type" = Normal (Str "payment_intent.succeeded") ->
     get2 event "data" "object" = Normal paymentIntent ->
     truthy (emailTransporter env) = true ->
     summarize rt paymentIntent Null Null = Normal s ->
     truthy (customerEmail s) = true ->
     businessEmailOptions rt sv tpl env s = Normal b ->
     customerEmailOptions rt tpl env s = Normal m ->
     webhook rt sv tpl env sig req_body
       = ([SendMail b; SendMail m],
          Normal (res_status_json 200 (literal [ ("received", Boolean true) ])))
     /\ get b "to" = Normal (or (env_value (BUSINESS_EMAIL env))
                                (Str default_business_email))
     /\ get m "to" = Normal (customerEmail s))
  /\ (get event "type" = Normal (Str "payment_intent.succeeded") ->
      truthy (emailTransporter env) = false ->
      trace (webhook rt sv tpl env sig req_body) = [])
  /\ (get event "type" = Normal (Str "payment_intent.payment_failed") ->
      trace (webhook rt sv tpl env sig req_body) = []).
Proof.
  intros Hs He. unfold webhook. unfold configured in Hs. rewrite Hs, He.
  simpl negb. cbv iota. unfold dispatch.
  split; [|split].
  - intros pi s b m Ht Hd Hmail Hsum Hemail Hb Hm.
    unfold get2 in Hd. rewrite Ht.
    destruct (get event "data") as [data|] eqn:Ed; simpl in Hd; [|discriminate].
    destruct (summarize_not_nullish _ _ _ _ Hsum) as [id Hid].
    cbv [bind lift ret try_catch]. simpl is_string. cbv iota beta.
    rewrite Hd, Hid, Hmail.
    rewrite (sendOrderEmails_sends env pi Undefined Undefined Undefined
               s b m Hmail Hsum Hemail Hb Hm).
    split; [reflexivity|].
    split.
    + revert Hb. unfold businessEmailOptions.
      destruct (to_string rt (paymentId s)); simpl; [|discriminate].
      destruct (to_string rt (amount s)); simpl; [|discriminate].
      destruct (to_string rt (customerName s)); simpl; [|discriminate].
      destruct (to_string rt (customerEmail s)); simpl; [|discriminate].
      intros H; injection H as <-. reflexivity.
    + revert Hm. unfold customerEmailOptions.
      destruct (to_string rt (paymentId s)); simpl; [|discriminate].
      destruct (to_string rt (customerName s)); simpl; [|discriminate].
      destruct (to_string rt (amount s)); simpl; [|discriminate].
      intros H; injection H as <-. reflexivity.
  - intros Ht Hmail. rewrite Ht.
    cbv [bind lift ret try_catch trace]. simpl is_string. cbv iota beta.
    destruct (get event "data") as [data|]; [|reflexivity].
    destruct (get data "object") as [pi|]; [|reflexivity].
    destruct (get pi "id"); [|reflexivity].
    rewrite Hmail. reflexivity.
  - intros Ht. rewrite Ht.
    cbv [bind lift ret try_catch trace]. simpl is_string. cbv iota beta.
    destruct (get event "data") as [data|]; [|reflexivity].
    destruct (get data "object") as [pi|]; [|reflexivity].
    destruct (get pi "id"); reflexivity.
Qed.

(** ** POST /api/confirm-payment *)

(** C5. Once the intent has been retrieved:
    - if its status is not "succeeded", the answer is a 200 (not an
      exception, not an error status) with [success: false], [status]
      equal to the intent's current status and the message "Payment
      status is ..."; the retrieval is the only call made, so no
      e-mail is sent;
    - if its status is "succeeded", the answer is a 200 with
      [success: true] and the intent, and the notifier has run: after
      the retrieval the calls made are exactly those of
      [sendOrderEmails] on the intent. *)
Theorem confirm_payment_reports env fs paymentIntent :
  truthy (lookup fs "payment_intent_id") = true ->
  stripe_paymentIntents_retrieve sv (lookup fs "payment_intent_id")
    = Normal paymentIntent ->
  (forall st shown,
     get paymentIntent "status" = Normal st ->
     is_string st "succeeded" = false ->
     to_string rt st = Normal shown ->
     confirm_payment rt sv tpl env (Obj fs)
       = ([PaymentIntentsRetrieve (lookup fs "payment_intent_id")],
          Normal (res_status_json 200
                    (literal [ ("success", Boolean false);
                               ("status", st);
                               ("message", Str ("Payment status is " ++ shown)) ]))))
  /\ (get paymentIntent "status" = Normal (Str "succeeded") ->
      result (confirm_payment rt sv tpl env (Obj fs))
        = Normal (res_status_json 200
                    (literal [ ("success", Boolean true);
                               ("payment_intent", paymentIntent) ]))
      /\ trace (confirm_payment rt sv tpl env (Obj fs))
         = PaymentIntentsRetrieve (lookup fs "payment_intent_id")
             :: trace (sendOrderEmails rt sv tpl env paymentIntent
                         Undefined Undefined Undefined)).
Proof.
  intros Hid Hr. unfold confirm_payment.
  cbv [bind lift ret try_catch await]. simpl get. cbv iota beta.
  rewrite Hid, Hr. simpl negb. cbv iota beta.
  split.
  - intros st shown Hst Hne Hshown. rewrite Hst, Hne, Hshown. reflexivity.
  - intros Hst. rewrite Hst. simpl is_string. cbv iota.
    destruct (truthy (emailTransporter env)) eqn:Ht.
    + destruct (sendOrderEmails_mails env paymentIntent
                  Undefined Undefined Undefined) as [Hres _].
      destruct (sendOrderEmails _ _ _ _ _ _ _ _) as [t r]. simpl in Hres. subst r.
      simpl. rewrite !app_nil_r. split; reflexivity.
    + rewrite (sendOrderEmails_without_transporter env paymentIntent
                 Undefined Undefined Undefined Ht).
      split; reflexivity.
Qed.

(** ** GET /api/health *)

Lemma truthy_and a b : truthy (and a b) = truthy a && truthy b.
Proof. unfold and. destruct (truthy a) eqn:E; [reflexivity | exact E]. Qed.

(** C7. The health response depends on the secrets (payment key,
    webhook secret, e-mail user and password) only through which of
    them are configured: two runs with the same presence pattern and
    the same [NODE_ENV] give the same status and, apart from
    [timestamp], the same body, whatever the secret values and the
    clock are. The configuration appears in it as booleans, and
    [timestamp] is the clock's reading, not a function of the
    environment. *)
Theorem health_hides_secrets (sv1 sv2 : services) (e1 e2 : environment) :
  configured (STRIPE_SECRET_KEY e1) = configured (STRIPE_SECRET_KEY e2) ->
  configured (STRIPE_WEBHOOK_SECRET e1) = configured (STRIPE_WEBHOOK_SECRET e2) ->
  configured (EMAIL_USER e1) = configured (EMAIL_USER e2) ->
  configured (EMAIL_PASS e1) = configured (EMAIL_PASS e2) ->
  NODE_ENV e1 = NODE_ENV e2 ->
  status (health sv1 e1) = status (health sv2 e2)
  /\ without_timestamp (health sv1 e1) = without_timestamp (health sv2 e2)
  /\ get (json_body (health sv1 e1)) "stripe_key_configured"
     = Normal (Boolean (configured (STRIPE_SECRET_KEY e1)))
  /\ get (json_body (health sv1 e1)) "email_configured"
     = Normal (Boolean (configured (EMAIL_USER e1) && configured (EMAIL_PASS e1)))
  /\ get (json_body (health sv1 e1)) "timestamp"
     = Normal (Str (Date_toISOString sv1)).
Proof.
  unfold configured. intros Hk _ Hu Hp Hn.
  split; [reflexivity|]. split; [|split; [|split]].
  - unfold health, without_timestamp. simpl.
    rewrite !truthy_and, Hk, Hu, Hp, Hn. reflexivity.
  - reflexivity.
  - simpl. rewrite truthy_and. reflexivity.
  - reflexivity.
Qed.

(** ** The CORS gate *)

Lemma indexOf_lower l v : (-1 <= indexOf l v)%Z.
Proof.
  induction l as [|x l IH]; simpl; [lia|].
  destruct (is_string v x); [lia|].
  destruct (indexOf l v =? -1)%Z; lia.
Qed.

Lemma indexOf_minus_one l s :
  indexOf l (Str s) = (-1)%Z <-> ~ In s l.
Proof.
  induction l as [|x l IH]; simpl.
  - split; [intros _ [] | reflexivity].
  - destruct (s =? x) eqn:E.
    + apply String.eqb_eq in E. subst x. split; [discriminate|].
      intros H. exfalso. apply H. now left.
    + apply String.eqb_neq in E.
      pose proof (indexOf_lower l (Str s)) as Hl.
      destruct (indexOf l (Str s) =? -1)%Z eqn:Ei.
      * apply Z.eqb_eq in Ei. split; [|reflexivity].
        intros _ [H|H]; [congruence | now apply IH in Ei].
      * apply Z.eqb_neq in Ei. split; [lia|].
        intros H. exfalso. apply Ei, IH. tauto.
Qed.

(** C8 (as amended). The gate allows the request when the Origin
    header is absent, is the empty string, or is a member of the
    allow-list; for any other origin it hands the callback an error
    (the framework's error path) and [false]. The allow-list is the
    constant [allowedOrigins]: every health response reports it
    unchanged. *)
Theorem cors_origin_decision (o : option string) :
  (o = None \/ o = Some "" \/ (exists s, o = Some s /\ In s allowedOrigins) ->
   cors_origin (env_value o) = callback None true)
  /\ (forall s, o = Some s -> s <> "" -> ~ In s allowedOrigins ->
      cors_origin (env_value o)
        = callback (Some (mkError cors_message None)) false)
  /\ (forall (w : services) env,
        get (json_body (health w env)) "cors_allowed_origins"
          = Normal (Arr (map Str allowedOrigins))).
Proof.
  split; [|split].
  - intros [-> | [-> | (s & -> & Hin)]]; try reflexivity.
    unfold cors_origin. simpl env_value.
    destruct (negb (truthy (Str s))); [reflexivity|].
    destruct (indexOf allowedOrigins (Str s) =? -1)%Z eqn:E; [|reflexivity].
    apply Z.eqb_eq, indexOf_minus_one in E. contradiction.
  - intros s -> Hne Hnin. unfold cors_origin. simpl env_value.
    assert (Ht : truthy (Str s) = true).
    { simpl. apply negb_true_iff, String.eqb_neq. exact Hne. }
    rewrite Ht. simpl negb. cbv iota.
    apply indexOf_minus_one in Hnin. rewrite Hnin. reflexivity.
  - intros w env. reflexivity.
Qed.

End Properties.

(** * The properties on concrete requests *)

Module Examples.

Import Sample.

(** ** POST /api/process-paypal-payment *)

(** C1 as stated fails: with all three fields present, an [amount] of 0
    is answered 400 and the string "19.99" is answered 500. *)
Lemma process_paypal_payment_present_is_not_enough :
  (present (Obj paypal_zero) "orderID" = true
   /\ present (Obj paypal_zero) "payerID" = true
   /\ present (Obj paypal_zero) "amount" = true
   /\ result (process_paypal_payment rt world tpl env (Obj paypal_zero))
      = Normal (res_status_json 400 missing_payment_information))
  /\
  (present (Obj paypal_string) "orderID" = true
   /\ present (Obj paypal_string) "payerID" = true
   /\ present (Obj paypal_string) "amount" = true
   /\ exists r,
        result (process_paypal_payment rt world tpl env (Obj paypal_string))
          = Normal r
        /\ status r = 500).
Proof.
  repeat split. eexists. split; reflexivity.
Qed.

Lemma process_paypal_payment_validates_witness :
  process_paypal_payment rt world tpl env (Obj paypal_no_payer)
    = ([], Normal (res_status_json 400
                     (literal [ ("success", Boolean false);
                                ("error", Str "Missing required payment information") ])))
  /\
  process_paypal_payment rt world tpl env (Obj paypal_zero)
    = ([], Normal (res_status_json 400 missing_payment_information))
  /\
  exists email payment,
    get_opt (lookup paypal_19_99 "customer") "email" = Normal email
    /\ payment = paypalPayment world (Str "O1") (Str "P1") email (Str "19.99")
    /\ result (process_paypal_payment rt world tpl env (Obj paypal_19_99))
       = Normal (res_status_json 200
                   (literal [ ("success", Boolean true); ("payment", payment) ]))
    /\ get payment "id" = Normal (Str "O1")
    /\ get payment "status" = Normal (Str "COMPLETED")
    /\ get2 payment "amount" "value" = Normal (Str "19.99")
    /\ (forall q, n_19_99 = Finite q -> Qle_bool ten_pow_21 (Qabs q) = false ->
        toFixed2 rt n_19_99 = fixed2 q)
    /\ Forall is_mail
         (trace (process_paypal_payment rt world tpl env (Obj paypal_19_99))).
Proof.
  split; [|split].
  - apply (proj1 (process_paypal_payment_validates rt world tpl env paypal_no_payer)).
    right. left. reflexivity.
  - apply (proj1 (proj2 (process_paypal_payment_validates rt world tpl env
                           paypal_zero))).
    reflexivity.
  - apply (proj2 (proj2 (process_paypal_payment_validates rt world tpl env
                           paypal_19_99))
             n_19_99); reflexivity.
Defined.

(** C10 as stated fails: with [orderID] present but empty, [payerID]
    present and [amount] the string "19.99" (truthy, not a number),
    the guard of line 132 answers 400, not 500. *)
Lemma process_paypal_payment_present_empty_id_is_rejected :
  present (Obj paypal_empty_order) "orderID" = true
  /\ present (Obj paypal_empty_order) "payerID" = true
  /\ lookup paypal_empty_order "amount" = Str "19.99"
  /\ truthy (lookup paypal_empty_order "amount") = true
  /\ process_paypal_payment rt world tpl env (Obj paypal_empty_order)
     = ([], Normal (res_status_json 400 missing_payment_information)).
Proof. repeat split. Qed.

Lemma process_paypal_payment_non_number_witness :
  process_paypal_payment rt world tpl env (Obj paypal_string)
    = ([], Normal (res_status_json 500
                     (literal [ ("success", Boolean false);
                                ("error", Str "amount.toFixed is not a function") ]))).
Proof.
  apply (process_paypal_payment_non_number rt world tpl env paypal_string);
    try reflexivity.
  intros n. discriminate.
Defined.

(** ** POST /api/create-payment-intent *)

Lemma create_payment_intent_validates_witness :
  create_payment_intent rt world (Obj intent_25)
    = ([], Normal (res_status_json 400
                     (literal [ ("error", Str "Invalid amount");
                                ("details", Str "Amount must be at least $0.50") ])))
  /\
  (exists params paymentIntent client_secret id,
     trace (create_payment_intent rt world (Obj intent_50_5))
       = [PaymentIntentsCreate params]
     /\ stripe_paymentIntents_create world params = Normal paymentIntent
     /\ get paymentIntent "client_secret" = Normal client_secret
     /\ get paymentIntent "id" = Normal id
     /\ body (res_status_json 200
                (literal [ ("success", Boolean true);
                           ("client_secret", Str "pi_1_secret");
                           ("payment_intent_id", Str "pi_1") ]))
        = Json (literal [ ("success", Boolean true);
                          ("client_secret", client_secret);
                          ("payment_intent_id", id) ]))
  /\
  (exists client_secret id,
     get (intent "pi_1" "requires_payment_method" Null) "client_secret"
       = Normal client_secret
     /\ get (intent "pi_1" "requires_payment_method" Null) "id" = Normal id
     /\ create_payment_intent rt world (Obj intent_50_5)
        = ([PaymentIntentsCreate params_50_5],
           Normal (res_status_json 200
                     (literal [ ("success", Boolean true);
                                ("client_secret", client_secret);
                                ("payment_intent_id", id) ])))).
Proof.
  split; [|split].
  - apply (proj1 (create_payment_intent_validates rt world intent_25)).
    right. exists (of_Z 25). split; reflexivity.
  - apply (proj1 (proj2 (create_payment_intent_validates rt world intent_50_5))
             (Finite (101 # 2))
             (res_status_json 200
                (literal [ ("success", Boolean true);
                           ("client_secret", Str "pi_1_secret");
                           ("payment_intent_id", Str "pi_1") ])));
      reflexivity.
  - apply (proj2 (proj2 (create_payment_intent_validates rt world intent_50_5))
             (Finite (101 # 2)) params_50_5
             (intent "pi_1" "requires_payment_method" Null));
      reflexivity.
Defined.

(** C6 on the validation branch: the 400 body is [{error, details}]; it
    has no [success] field, unlike the 500 body of the same handler. *)
Lemma create_payment_intent_400_has_no_success :
  create_payment_intent rt world (Obj intent_25)
    = ([], Normal (res_status_json 400
                     (Obj [ ("error", Str "Invalid amount");
                            ("details", Str "Amount must be at least $0.50") ])))
  /\ present (Obj [ ("error", Str "Invalid amount");
                    ("details", Str "Amount must be at least $0.50") ])
       "success" = false.
Proof. split; reflexivity. Qed.

Lemma create_payment_intent_rounds_witness :
  (forall r, result (create_payment_intent rt world (Obj intent_50_5)) = Normal r ->
             status r <> 400)
  /\ (forall params,
        In (PaymentIntentsCreate params)
           (trace (create_payment_intent rt world (Obj intent_50_5))) ->
        get params "amount" = Normal (Num (of_Z 51)))
  /\ (forall count,
        items_count rt (lookup intent_50_5 "items") = Normal count ->
        exists params,
          trace (create_payment_intent rt world (Obj intent_50_5))
            = [PaymentIntentsCreate params]
          /\ get params "amount" = Normal (Num (of_Z 51)))
  /\ (forall q, Finite (101 # 2) = Finite q ->
        exists z, of_Z 51 = of_Z z
                  /\ (inject_Z z - (1 # 2) <= q)%Q
                  /\ (q < inject_Z z - (1 # 2) + 1)%Q).
Proof.
  apply (create_payment_intent_rounds rt world intent_50_5 (Finite (101 # 2)));
    reflexivity.
Defined.

(** ** POST /api/webhook *)

Lemma webhook_rejects_bad_signature_witness :
  webhook rt world tpl env (Str "forged") succeeded_event
    = ([], Normal (res_status_send 400
                     ("Webhook Error: " ++ message signature_error))).
Proof.
  apply (webhook_rejects_bad_signature rt world tpl env (Str "forged")
           succeeded_event signature_error); reflexivity.
Defined.

(** C4 as stated fails: without e-mail credentials a validly signed
    "payment_intent.succeeded" event whose intent has a receipt e-mail
    is acknowledged and no send is attempted. *)
Lemma webhook_succeeded_without_transporter_sends_nothing :
  stripe_webhooks_constructEvent world succeeded_event (Str "good")
    (env_value (STRIPE_WEBHOOK_SECRET env_no_email)) = Normal succeeded_event
  /\ get succeeded_event "type" = Normal (Str "payment_intent.succeeded")
  /\ (exists paymentIntent s,
        get2 succeeded_event "data" "object" = Normal paymentIntent
        /\ summarize rt paymentIntent Null Null = Normal s
        /\ customerEmail s = Str "a@b.com")
  /\ webhook rt world tpl env_no_email (Str "good") succeeded_event
     = ([], Normal (res_status_json 200 (literal [ ("received", Boolean true) ]))).
Proof.
  repeat split. do 2 eexists. repeat split.
Qed.

Lemma webhook_notifies_witness :
  (exists b m,
     webhook rt world tpl env (Str "good") succeeded_event
       = ([SendMail b; SendMail m],
          Normal (res_status_json 200 (literal [ ("received", Boolean true) ])))
     /\ get b "to" = Normal (Str "anaroyes7@gmail.com")
     /\ get m "to" = Normal (Str "a@b.com"))
  /\ trace (webhook rt world tpl env_no_email (Str "good") succeeded_event) = []
  /\ trace (webhook rt world tpl env (Str "good") failed_event) = [].
Proof.
  split; [|split].
  - do 2 eexists.
    eapply (proj1 (webhook_notifies rt world tpl env (Str "good")
                     succeeded_event succeeded_event eq_refl eq_refl)
              (intent "pi_1" "succeeded" (Str "a@b.com"))
              {| customerEmail := Str "a@b.com";
                 customerName := Str "Customer";
                 amount := Str "19.99";
                 paymentId := Str "pi_1";
                 paymentMethod := "Credit Card (Stripe)" |});
      reflexivity.
  - apply (proj1 (proj2 (webhook_notifies rt world tpl env_no_email (Str "good")
                           succeeded_event succeeded_event eq_refl eq_refl)));
      reflexivity.
  - apply (proj2 (proj2 (webhook_notifies rt world tpl env (Str "good")
                           failed_event failed_event eq_refl eq_refl)));
      reflexivity.
Defined.

(** ** POST /api/confirm-payment *)

Lemma confirm_payment_reports_witness :
  confirm_payment rt (sv "processing") tpl env (Obj confirm_pi_1)
    = ([PaymentIntentsRetrieve (Str "pi_1")],
       Normal (res_status_json 200
                 (literal [ ("success", Boolean false);
                            ("status", Str "processing");
                            ("message", Str "Payment status is processing") ])))
  /\ result (confirm_payment rt (sv "succeeded") tpl env (Obj confirm_pi_1))
     = Normal (res_status_json 200
                 (literal [ ("success", Boolean true);
                            ("payment_intent",
                              intent "pi_1" "succeeded" (Str "a@b.com")) ]))
  /\ trace (confirm_payment rt (sv "succeeded") tpl env (Obj confirm_pi_1))
     = PaymentIntentsRetrieve (Str "pi_1")
         :: trace (sendOrderEmails rt (sv "succeeded") tpl env
                     (intent "pi_1" "succeeded" (Str "a@b.com"))
                     Undefined Undefined Undefined).
Proof.
  split.
  - apply (proj1 (confirm_payment_reports rt (sv "processing") tpl env confirm_pi_1
                    (intent "pi_1" "processing" (Str "a@b.com")) eq_refl eq_refl)
             (Str "processing") "processing"); reflexivity.
  - apply (proj2 (confirm_payment_reports rt (sv "succeeded") tpl env confirm_pi_1
                    (intent "pi_1" "succeeded" (Str "a@b.com")) eq_refl eq_refl)).
    reflexivity.
Defined.

(** ** GET /api/health *)

Lemma health_hides_secrets_witness :
  status (health world env) = status (health other_world other_env)
  /\ without_timestamp (health world env)
     = without_timestamp (health other_world other_env)
  /\ get (json_body (health world env)) "stripe_key_configured"
     = Normal (Boolean true)
  /\ get (json_body (health world env)) "email_configured"
     = Normal (Boolean true)
  /\ get (json_body (health world env)) "timestamp"
     = Normal (Str "2024-01-01T00:00:00.000Z").
Proof.
  apply (health_hides_secrets world other_world env other_env); reflexivity.
Defined.

(** ** The CORS gate *)

(** C8 as stated fails: an Origin header that is present but empty is
    not a member of the allow-list, and the request is allowed. *)
Lemma cors_origin_allows_empty_origin :
  env_value (Some "") = Str ""
  /\ ~ In "" allowedOrigins
  /\ cors_origin (env_value (Some "")) = callback None true.
Proof.
  split; [reflexivity|]. split; [|reflexivity].
  simpl. intros H. repeat destruct H as [H|H]; try discriminate H. exact H.
Qed.

Lemma cors_origin_decision_witness :
  cors_origin (env_value None) = callback None true
  /\ cors_origin (env_value (Some "https://pakbh.com")) = callback None true
  /\ cors_origin (env_value (Some "https://evil.example"))
     = callback (Some (mkError cors_message None)) false
  /\ get (json_body (health world env)) "cors_allowed_origins"
     = Normal (Arr (map Str allowedOrigins)).
Proof.
  split; [|split; [|split]].
  - apply (proj1 (cors_origin_decision None)). left. reflexivity.
  - apply (proj1 (cors_origin_decision (Some "https://pakbh.com"))).
    right. right. exists "https://pakbh.com". split; [reflexivity|].
    simpl. tauto.
  - apply (proj1 (proj2 (cors_origin_decision (Some "https://evil.example")))
             "https://evil.example"); [reflexivity | discriminate |].
    simpl. intros H. repeat destruct H as [H|H]; try discriminate H. exact H.
  - apply (proj2 (proj2 (cors_origin_decision None))).
Defined.

End Examples.

(** * Further properties of the handlers *)

Ltac answered := simpl; eexists; repeat split; [tauto | now left].

Lemma lookup_assign_same fs k v : lookup (assign fs k v) k = v.
Proof.
  induction fs as [|[k' v'] fs IH]; simpl.
  - rewrite String.eqb_refl. reflexivity.
  - destruct (k' =? k) eqn:E; simpl.
    + rewrite String.eqb_refl. reflexivity.
    + rewrite E. exact IH.
Qed.

Lemma lookup_assign_other fs k k' v :
  k <> k' -> lookup (assign fs k v) k' = lookup fs k'.
Proof.
  intros Hne. induction fs as [|[k0 v0] fs IH]; simpl.
  - apply String.eqb_neq in Hne. rewrite Hne. reflexivity.
  - destruct (k0 =? k) eqn:E; simpl.
    + apply String.eqb_eq in E. subst k0.
      apply String.eqb_neq in Hne. rewrite Hne. reflexivity.
    + destruct (k0 =? k'); [reflexivity | exact IH].
Qed.

Lemma truthy_or a b : truthy (or a b) = truthy a || truthy b.
Proof. unfold or. destruct (truthy a) eqn:E; [exact E | reflexivity]. Qed.

(** ** Every request is answered *)

Section Answers.

Variable rt : builtins.
Variable sv : services.
Variable tpl : templates.

Lemma sendOrderEmails_shape env pd c i t :
  exists tr, sendOrderEmails rt sv tpl env pd c i t = (tr, Normal tt)
             /\ no_calls_or_two_mails tr.
Proof.
  destruct (sendOrderEmails_outcome rt sv tpl env pd c i t)
    as [E | (s & b & m & _ & _ & _ & _ & _ & E)]; rewrite E.
  - exists []. split; [reflexivity | now left].
  - eexists. split; [reflexivity | right; eauto].
Qed.

(** X1. POST /api/process-paypal-payment answers every request, whatever
    the body (even [undefined]), the configuration and the mailer do: no
    exception leaves the handler, the status is 200, 400 or 500, and the
    calls made are none at all or exactly two mail sends; the payment
    provider is never called. *)
Theorem process_paypal_payment_answers env req_body :
  exists r,
    result (process_paypal_payment rt sv tpl env req_body) = Normal r
    /\ (status r = 200 \/ status r = 400 \/ status r = 500)
    /\ no_calls_or_two_mails (trace (process_paypal_payment rt sv tpl env req_body)).
Proof.
  unfold process_paypal_payment. cbv [bind lift ret try_catch result trace].
  destruct (get req_body "orderID") as [orderID|e]; [|answered].
  destruct (get req_body "payerID") as [payerID|e]; [|answered].
  destruct (get req_body "amount") as [amount|e]; [|answered].
  destruct (get req_body "customer") as [customer|e]; [|answered].
  destruct (get req_body "items") as [items|e]; [|answered].
  destruct (negb (truthy orderID) || negb (truthy payerID) || negb (truthy amount));
    [answered|].
  destruct (call_toFixed2 rt "amount" amount) as [fixed|e]; [|answered].
  destruct (get_opt customer "email") as [email|e]; [|answered].
  destruct (truthy (emailTransporter env)); [|answered].
  destruct (sendOrderEmails_shape env (paypalPayment sv orderID payerID email fixed)
              customer items amount) as (tr & -> & Htr).
  simpl. eexists. repeat split; [tauto|]. rewrite app_nil_r. exact Htr.
Qed.

(** X2. POST /api/create-payment-intent answers every request with 200,
    400 or 500; it makes at most one call, a [paymentIntents.create],
    and never sends mail. *)
Theorem create_payment_intent_answers req_body :
  exists r,
    result (create_payment_intent rt sv req_body) = Normal r
    /\ (status r = 200 \/ status r = 400 \/ status r = 500)
    /\ (trace (create_payment_intent rt sv req_body) = []
        \/ exists params,
             trace (create_payment_intent rt sv req_body)
               = [PaymentIntentsCreate params]).
Proof.
  unfold create_payment_intent. cbv [bind lift ret try_catch await result trace].
  destruct (get req_body "amount") as [amount|e]; [|answered].
  destruct (get req_body "currency") as [currency|e]; [|answered].
  destruct (get req_body "customer") as [customer|e]; [|answered].
  destruct (get req_body "items") as [items|e]; [|answered].
  destruct (get req_body "metadata") as [metadata|e]; [|answered].
  destruct (if negb (truthy amount) then Normal true
            else less_than rt amount (of_Z 50)) as [[|]|e]; [answered | | answered].
  destruct (create_params rt amount _ customer items metadata) as [p|e];
    [|answered].
  destruct (stripe_paymentIntents_create sv p) as [pi|e];
    [|simpl; eexists; repeat split; [tauto | right; eauto]].
  destruct (get pi "id") as [id|e];
    [|simpl; eexists; repeat split; [tauto | right; eauto]].
  destruct (get pi "client_secret") as [cs|e];
    simpl; eexists; repeat split; try tauto; right; eauto.
Qed.

(** X3. POST /api/confirm-payment answers every request with 200, 400
    or 500; it makes no call at all, or one retrieval of the requested
    id followed by no mail or exactly two mails. *)
Theorem confirm_payment_answers env req_body :
  exists r,
    result (confirm_payment rt sv tpl env req_body) = Normal r
    /\ (status r = 200 \/ status r = 400 \/ status r = 500)
    /\ (trace (confirm_payment rt sv tpl env req_body) = []
        \/ exists id mails,
             trace (confirm_payment rt sv tpl env req_body)
               = PaymentIntentsRetrieve id :: mails
             /\ get req_body "payment_intent_id" = Normal id
             /\ no_calls_or_two_mails mails).
Proof.
  unfold confirm_payment. cbv [bind lift ret try_catch await result trace].
  destruct (get req_body "payment_intent_id") as [id|e]; [|answered].
  destruct (negb (truthy id)); [answered|].
  assert (Hnil : no_calls_or_two_mails []) by now left.
  destruct (stripe_paymentIntents_retrieve sv id) as [pi|e];
    [|simpl; eexists; repeat split; [tauto | right; eauto]].
  destruct (get pi "status") as [st|e];
    [|simpl; eexists; repeat split; [tauto | right; eauto]].
  destruct (is_string st "succeeded").
  - destruct (truthy (emailTransporter env)).
    + destruct (sendOrderEmails_shape env pi Undefined Undefined Undefined)
        as (tr & -> & Htr).
      simpl. eexists. repeat split; [tauto|]. right. exists id, tr.
      rewrite !app_nil_r. auto.
    + simpl; eexists; repeat split; [tauto | right; eauto].
  - destruct (to_string rt st);
      simpl; eexists; repeat split; try tauto; right; eauto.
Qed.

(** X4. POST /api/webhook answers every request with 200, 400 or 500,
    never calls the payment provider, and sends no mail or exactly two
    mails. *)
Theorem webhook_answers env sig req_body :
  exists r,
    result (webhook rt sv tpl env sig req_body) = Normal r
    /\ (status r = 200 \/ status r = 400 \/ status r = 500)
    /\ no_calls_or_two_mails (trace (webhook rt sv tpl env sig req_body)).
Proof.
  unfold webhook.
  destruct (negb (truthy (env_value (STRIPE_WEBHOOK_SECRET env)))); [answered|].
  destruct (stripe_webhooks_constructEvent sv req_body sig _) as [event|e];
    [|answered].
  unfold dispatch. cbv [bind lift ret try_catch result trace].
  destruct (get event "type") as [ty|e]; [|answered].
  destruct (is_string ty "payment_intent.succeeded").
  - destruct (get event "data") as [data|e]; [|answered].
    destruct (get data "object") as [pi|e]; [|answered].
    destruct (get pi "id") as [id|e]; [|answered].
    destruct (truthy (emailTransporter env)); [|answered].
    destruct (sendOrderEmails_shape env pi Undefined Undefined Undefined)
      as (tr & -> & Htr).
    simpl. eexists. repeat split; [tauto|]. rewrite !app_nil_r. exact Htr.
  - destruct (is_string ty "payment_intent.payment_failed").
    + destruct (get event "data") as [data|e]; [|answered].
      destruct (get data "object") as [pi|e]; [|answered].
      destruct (get pi "id") as [id|e]; answered.
    + destruct (to_string rt ty); answered.
Qed.

(** X5. GET /api/payment-intent/:id answers every request with 200 or
    500; it makes at most one call, the retrieval of the requested id,
    and never sends mail. *)
Theorem get_payment_intent_answers req_params :
  exists r,
    result (get_payment_intent sv req_params) = Normal r
    /\ (status r = 200 \/ status r = 500)
    /\ (trace (get_payment_intent sv req_params) = []
        \/ exists id,
             get req_params "id" = Normal id
             /\ trace (get_payment_intent sv req_params)
                = [PaymentIntentsRetrieve id]).
Proof.
  unfold get_payment_intent. cbv [bind lift ret try_catch await result trace].
  destruct (get req_params "id") as [id|e]; [|answered].
  destruct (stripe_paymentIntents_retrieve sv id) as [pi|e];
    [|simpl; eexists; repeat split; [tauto | right; eauto]].
  destruct (get pi "id"); [|simpl; eexists; repeat split; [tauto | right; eauto]].
  destruct (get pi "status"); [|simpl; eexists; repeat split; [tauto | right; eauto]].
  destruct (get pi "amount"); [|simpl; eexists; repeat split; [tauto | right; eauto]].
  destruct (get pi "currency"); [|simpl; eexists; repeat split; [tauto | right; eauto]].
  destruct (get pi "created"); [|simpl; eexists; repeat split; [tauto | right; eauto]].
  destruct (get pi "payment_method");
    simpl; eexists; repeat split; try tauto; right; eauto.
Qed.

End Answers.

(** ** The e-mail notifier *)

Section Notifier.

Variable rt : builtins.
Variable sv : services.
Variable tpl : templates.

(** X6. [sendOrderEmails] is best effort: whatever the payment object,
    the configuration and the outcome of the two sends, it completes
    without throwing; and it either makes no call, or makes exactly the
    two sends (business message first), which happens only with a
    transporter, a truthy customer e-mail and two composable
    messages. *)
Theorem sendOrderEmails_best_effort env paymentData customer items totalAmount :
  result (sendOrderEmails rt sv tpl env paymentData customer items totalAmount)
    = Normal tt
  /\ (trace (sendOrderEmails rt sv tpl env paymentData customer items totalAmount) = []
      \/ exists s b m,
           summarize rt paymentData (default customer Null) (default totalAmount Null)
             = Normal s
           /\ truthy (customerEmail s) = true
           /\ truthy (emailTransporter env) = true
           /\ businessEmailOptions rt sv tpl env s = Normal b
           /\ customerEmailOptions rt tpl env s = Normal m
           /\ trace (sendOrderEmails rt sv tpl env paymentData customer items totalAmount)
              = [SendMail b; SendMail m]).
Proof.
  destruct (sendOrderEmails_outcome rt sv tpl env paymentData customer items totalAmount)
    as [E | (s & b & m & Hs & He & Hb & Hm & Ht & E)]; rewrite E; simpl.
  - split; [reflexivity | now left].
  - split; [reflexivity|]. right. exists s, b, m. auto 10.
Qed.

Lemma summarize_stripe_email fs c t s x :
  lookup fs "object" = Str "payment_intent" ->
  get_opt (lookup fs "metadata") "customer_email" = Normal x ->
  summarize rt (Obj fs) c t = Normal s ->
  customerEmail s = or (lookup fs "receipt_email") x.
Proof.
  intros Ho Hx. unfold summarize. simpl get. simpl cbind. rewrite Ho.
  simpl is_string. cbv iota. rewrite Hx. simpl cbind.
  destruct (get_opt (lookup fs "metadata") "customer_name"); simpl; [|discriminate].
  destruct (to_number rt (lookup fs "amount")); simpl; [|discriminate].
  intros H. injection H as <-. reflexivity.
Qed.

(** X7. A validly signed "payment_intent.succeeded" event whose intent
    has neither a truthy [receipt_email] nor a truthy
    [metadata.customer_email] is acknowledged with 200 and no mail is
    sent, not even the business notice. *)
Theorem webhook_without_customer_email env sig req_body event fs x :
  configured (STRIPE_WEBHOOK_SECRET env) = true ->
  stripe_webhooks_constructEvent sv req_body sig
    (env_value (STRIPE_WEBHOOK_SECRET env)) = Normal event ->
  get event "type" = Normal (Str "payment_intent.succeeded") ->
  get2 event "data" "object" = Normal (Obj fs) ->
  lookup fs "object" = Str "payment_intent" ->
  truthy (lookup fs "receipt_email") = false ->
  get_opt (lookup fs "metadata") "customer_email" = Normal x ->
  truthy x = false ->
  webhook rt sv tpl env sig req_body
    = ([], Normal (res_status_json 200 (literal [ ("received", Boolean true) ]))).
Proof.
  intros Hs He Ht Hd Ho Hr Hx Hf. unfold webhook. unfold configured in Hs.
  rewrite Hs, He. simpl negb. cbv iota. unfold dispatch.
  unfold get2 in Hd. rewrite Ht.
  destruct (get event "data") as [data|] eqn:Ed; simpl in Hd; [|discriminate].
  cbv [bind lift ret try_catch]. simpl is_string. cbv iota beta.
  rewrite Hd. simpl get. cbv iota beta.
  destruct (truthy (emailTransporter env)); [|reflexivity].
  destruct (sendOrderEmails_outcome rt sv tpl env (Obj fs) Undefined Undefined Undefined)
    as [E | (s & b & m & Hsum & Hem & _)].
  - rewrite E. reflexivity.
  - exfalso. rewrite (summarize_stripe_email fs _ _ s x Ho Hx Hsum) in Hem.
    rewrite truthy_or, Hr, Hf in Hem. discriminate.
Qed.

(** X8. A validly signed "payment_intent.succeeded" event that carries
    an intent object is always acknowledged with 200 [{received: true}]:
    neither a missing transporter nor a failed send turns the answer
    into an error (which would make the provider redeliver). *)
Theorem webhook_succeeded_is_acknowledged env sig req_body event paymentIntent :
  configured (STRIPE_WEBHOOK_SECRET env) = true ->
  stripe_webhooks_constructEvent sv req_body sig
    (env_value (STRIPE_WEBHOOK_SECRET env)) = Normal event ->
  get event "type" = Normal (Str "payment_intent.succeeded") ->
  get2 event "data" "object" = Normal paymentIntent ->
  nullish paymentIntent = false ->
  result (webhook rt sv tpl env sig req_body)
    = Normal (res_status_json 200 (literal [ ("received", Boolean true) ])).
Proof.
  intros Hs He Ht Hd Hn. unfold webhook. unfold configured in Hs.
  rewrite Hs, He. simpl negb. cbv iota. unfold dispatch.
  unfold get2 in Hd. rewrite Ht.
  destruct (get event "data") as [data|] eqn:Ed; simpl in Hd; [|discriminate].
  cbv [bind lift ret try_catch result]. simpl is_string. cbv iota beta.
  rewrite Hd.
  assert (Hid : exists id, get paymentIntent "id" = Normal id)
    by (destruct paymentIntent; simpl in *; try discriminate; eauto).
  destruct Hid as [id ->].
  destruct (truthy (emailTransporter env)); [|reflexivity].
  destruct (sendOrderEmails_shape rt sv tpl env paymentIntent Undefined Undefined Undefined)
    as (tr & -> & _).
  reflexivity.
Qed.

End Notifier.

(** X9. No response depends on e-mail: the answer of the PayPal handler
    is determined by the body and the clock, that of confirm-payment by
    the body and the retrieval, that of the webhook by the secret, the
    request and the signature verification; the mailer, its outcomes,
    the e-mail credentials and the templates never change it. *)
Theorem responses_ignore_mail (rt : builtins) :
  (forall sv1 sv2 tpl1 tpl2 env1 env2 req_body,
     Date_toISOString sv1 = Date_toISOString sv2 ->
     result (process_paypal_payment rt sv1 tpl1 env1 req_body)
       = result (process_paypal_payment rt sv2 tpl2 env2 req_body))
  /\ (forall sv1 sv2 tpl1 tpl2 env1 env2 req_body,
        stripe_paymentIntents_retrieve sv1 = stripe_paymentIntents_retrieve sv2 ->
        result (confirm_payment rt sv1 tpl1 env1 req_body)
          = result (confirm_payment rt sv2 tpl2 env2 req_body))
  /\ (forall sv1 sv2 tpl1 tpl2 env1 env2 sig req_body,
        STRIPE_WEBHOOK_SECRET env1 = STRIPE_WEBHOOK_SECRET env2 ->
        stripe_webhooks_constructEvent sv1 = stripe_webhooks_constructEvent sv2 ->
        result (webhook rt sv1 tpl1 env1 sig req_body)
          = result (webhook rt sv2 tpl2 env2 sig req_body)).
Proof.
  split; [|split].
  - intros sv1 sv2 tpl1 tpl2 env1 env2 req_body Hd.
    unfold process_paypal_payment. cbv [bind lift ret try_catch result].
    destruct (get req_body "orderID") as [orderID|e]; [|reflexivity].
    destruct (get req_body "payerID") as [payerID|e]; [|reflexivity].
    destruct (get req_body "amount") as [amount|e]; [|reflexivity].
    destruct (get req_body "customer") as [customer|e]; [|reflexivity].
    destruct (get req_body "items") as [items|e]; [|reflexivity].
    destruct (negb (truthy orderID) || negb (truthy payerID) || negb (truthy amount));
      [reflexivity|].
    destruct (call_toFixed2 rt "amount" amount) as [fixed|e]; [|reflexivity].
    destruct (get_opt customer "email") as [email|e]; [|reflexivity].
    assert (Hp : paypalPayment sv1 orderID payerID email fixed
                 = paypalPayment sv2 orderID payerID email fixed)
      by (unfold paypalPayment; rewrite Hd; reflexivity).
    rewrite Hp.
    destruct (truthy (emailTransporter env1)), (truthy (emailTransporter env2));
      repeat match goal with
        | |- context [sendOrderEmails ?r ?s ?t ?e ?p ?c ?i ?a] =>
            let tr := fresh "tr" in
            destruct (sendOrderEmails_shape r s t e p c i a) as (tr & -> & _)
        end; reflexivity.
  - intros sv1 sv2 tpl1 tpl2 env1 env2 req_body Hr.
    unfold confirm_payment. cbv [bind lift ret try_catch await result].
    destruct (get req_body "payment_intent_id") as [id|e]; [|reflexivity].
    destruct (negb (truthy id)); [reflexivity|].
    rewrite Hr.
    destruct (stripe_paymentIntents_retrieve sv2 id) as [pi|e]; [|reflexivity].
    destruct (get pi "status") as [st|e]; [|reflexivity].
    destruct (is_string st "succeeded").
    + destruct (truthy (emailTransporter env1)), (truthy (emailTransporter env2));
        repeat match goal with
          | |- context [sendOrderEmails ?r ?s ?t ?e ?p ?c ?i ?a] =>
              let tr := fresh "tr" in
              destruct (sendOrderEmails_shape r s t e p c i a) as (tr & -> & _)
          end; reflexivity.
    + destruct (to_string rt st); reflexivity.
  - intros sv1 sv2 tpl1 tpl2 env1 env2 sig req_body Hs Hc.
    unfold webhook. rewrite Hs, Hc.
    destruct (negb (truthy (env_value (STRIPE_WEBHOOK_SECRET env2)))); [reflexivity|].
    destruct (stripe_webhooks_constructEvent sv2 req_body sig _) as [event|e];
      [|reflexivity].
    unfold dispatch. cbv [bind lift ret try_catch result].
    destruct (get event "type") as [ty|e]; [|reflexivity].
    destruct (is_string ty "payment_intent.succeeded").
    + destruct (get event "data") as [data|e]; [|reflexivity].
      destruct (get data "object") as [pi|e]; [|reflexivity].
      destruct (get pi "id") as [id|e]; [|reflexivity].
      destruct (truthy (emailTransporter env1)), (truthy (emailTransporter env2));
        repeat match goal with
          | |- context [sendOrderEmails ?r ?s ?t ?e ?p ?c ?i ?a] =>
              let tr := fresh "tr" in
              destruct (sendOrderEmails_shape r s t e p c i a) as (tr & -> & _)
          end; reflexivity.
    + destruct (is_string ty "payment_intent.payment_failed").
      * destruct (get event "data") as [data|e]; [|reflexivity].
        destruct (get data "object") as [pi|e]; [|reflexivity].
        destruct (get pi "id") as [id|e]; reflexivity.
      * destruct (to_string rt ty); reflexivity.
Qed.

(** ** Errors and edge cases of the gateway and the webhook *)

Section Gateway.

Variable rt : builtins.
Variable sv : services.
Variable tpl : templates.

(** X10. When the payment provider refuses the charge request, the
    handler answers 500 with [success: false], the provider's message
    as [error] and the provider's error type as [code] (the defaults
    "Failed to create payment intent" and "unknown_error" when they are
    empty or absent); the one call made is not retried. *)
Theorem create_payment_intent_provider_error fs n params e :
  lookup fs "amount" = Num n ->
  number_geb n (of_Z 50) = true ->
  create_params rt (Num n) (default (lookup fs "currency") (Str "usd"))
    (lookup fs "customer") (lookup fs "items") (lookup fs "metadata")
    = Normal params ->
  stripe_paymentIntents_create sv params = Throw e ->
  create_payment_intent rt sv (Obj fs)
    = ([PaymentIntentsCreate params],
       Normal (res_status_json 500
                 (literal
                    [ ("success", Boolean false);
                      ("error", Str (if message e =? ""
                                     then "Failed to create payment intent"
                                     else message e));
                      ("code", Str (match type e with
                                    | Some c => if c =? "" then "unknown_error" else c
                                    | None => "unknown_error"
                                    end)) ]))).
Proof.
  intros Ha Hn Ep He.
  rewrite (create_payment_intent_valid rt sv fs n Ha Hn).
  rewrite Ep. cbv [bind lift ret try_catch await]. rewrite He.
  destruct e as [msg ty]. simpl. unfold or. simpl.
  destruct (msg =? ""), ty as [c|]; simpl; try reflexivity;
    destruct (c =? ""); reflexivity.
Qed.

(** X11. The charge request built from a valid body: [currency] is
    "usd" when the body has none and the body's value otherwise (even
    [null]); [receipt_email] is the customer's e-mail; in [metadata] the
    derived [customer_email], [customer_name] and [items_count] replace
    any field of the same name sent by the caller, and every other
    caller field is passed on unchanged. *)
Theorem create_payment_intent_forwards fs n count email name :
  lookup fs "amount" = Num n ->
  number_geb n (of_Z 50) = true ->
  items_count rt (lookup fs "items") = Normal count ->
  get_opt (lookup fs "customer") "email" = Normal email ->
  get_opt (lookup fs "customer") "name" = Normal name ->
  exists params,
    trace (create_payment_intent rt sv (Obj fs)) = [PaymentIntentsCreate params]
    /\ get params "currency"
       = Normal (match lookup fs "currency" with
                 | Undefined => Str "usd"
                 | currency => currency
                 end)
    /\ get params "receipt_email" = Normal email
    /\ get params "description" = Normal (Str description)
    /\ get2 params "metadata" "customer_email" = Normal (or email (Str ""))
    /\ get2 params "metadata" "customer_name" = Normal (or name (Str ""))
    /\ get2 params "metadata" "items_count" = Normal count
    /\ (forall k, k <> "customer_email" -> k <> "customer_name" ->
                  k <> "items_count" ->
                  get2 params "metadata" k
                    = get (literal (spread (lookup fs "metadata"))) k).
Proof.
  intros Ha Hn Hc Hemail Hname.
  rewrite (create_payment_intent_valid rt sv fs n Ha Hn).
  unfold create_params. simpl to_number. simpl cbind.
  rewrite Hemail, Hname. simpl cbind. rewrite Hc. simpl cbind.
  match goal with
  | |- context [lift (Normal ?p)] => exists p
  end.
  split.
  { cbv [bind lift ret try_catch await trace].
    match goal with
    | |- context [stripe_paymentIntents_create sv ?p] =>
        destruct (stripe_paymentIntents_create sv p) as [pi|]; [|reflexivity]
    end.
    destruct (get pi "id"); [|reflexivity].
    destruct (get pi "client_secret"); reflexivity. }
  split; [simpl; destruct (lookup fs "currency"); reflexivity|].
  split; [reflexivity|]. split; [reflexivity|].
  unfold get2, literal. simpl get. simpl cbind.
  rewrite !fold_left_app. simpl fold_left.
  repeat split.
  - rewrite lookup_assign_other, lookup_assign_other by discriminate.
    rewrite lookup_assign_same. reflexivity.
  - rewrite lookup_assign_other by discriminate.
    rewrite lookup_assign_same. reflexivity.
  - rewrite lookup_assign_same. reflexivity.
  - intros k H1 H2 H3.
    rewrite !lookup_assign_other by congruence. reflexivity.
Qed.

(** X12. An [amount] given as a non-empty string is not rejected for
    its type: unless its numeric value compares below 50 (a string that
    is not a number never does), validation passes and
    [Math.round] of that numeric value is what reaches the provider. *)
Theorem create_payment_intent_coerces_strings fs s count :
  lookup fs "amount" = Str s ->
  s <> "" ->
  number_ltb (string_to_number rt s) (of_Z 50) = false ->
  items_count rt (lookup fs "items") = Normal count ->
  exists params,
    trace (create_payment_intent rt sv (Obj fs)) = [PaymentIntentsCreate params]
    /\ get params "amount" = Normal (Num (Math_round (string_to_number rt s)))
    /\ (forall r, result (create_payment_intent rt sv (Obj fs)) = Normal r ->
                  status r <> 400).
Proof.
  intros Ha Hne Hlt Hc.
  unfold create_payment_intent.
  cbv [bind lift ret try_catch await result trace]. simpl get. cbv iota beta.
  rewrite Ha. simpl truthy. apply String.eqb_neq in Hne. rewrite Hne.
  simpl negb. cbv iota. unfold less_than. simpl to_number. simpl cbind.
  rewrite Hlt. cbv iota.
  unfold create_params. simpl to_number. simpl cbind.
  destruct (get_opt_total (lookup fs "customer") "email") as [e ->].
  destruct (get_opt_total (lookup fs "customer") "name") as [nm ->].
  simpl cbind. rewrite Hc. simpl cbind. cbv beta iota.
  match goal with
  | |- context [stripe_paymentIntents_create sv ?p] =>
      exists p; destruct (stripe_paymentIntents_create sv p) as [pi|]
  end.
  - destruct (get pi "id"); [destruct (get pi "client_secret")|];
      simpl; (repeat split; try reflexivity);
      intros r H; injection H as <-; discriminate.
  - simpl. repeat split; try reflexivity.
    intros r H; injection H as <-; discriminate.
Qed.

(** X13. confirm-payment: a missing or otherwise falsy
    [payment_intent_id] is answered 400 "Payment intent ID is required"
    without any call; a failed retrieval is answered 500 with the
    provider's message (or "Failed to confirm payment") and no mail is
    sent. *)
Theorem confirm_payment_errors env fs :
  (truthy (lookup fs "payment_intent_id") = false ->
   confirm_payment rt sv tpl env (Obj fs)
     = ([], Normal (res_status_json 400
                      (literal [ ("success", Boolean false);
                                 ("error", Str "Payment intent ID is required") ]))))
  /\ (forall e,
        truthy (lookup fs "payment_intent_id") = true ->
        stripe_paymentIntents_retrieve sv (lookup fs "payment_intent_id") = Throw e ->
        confirm_payment rt sv tpl env (Obj fs)
          = ([PaymentIntentsRetrieve (lookup fs "payment_intent_id")],
             Normal (res_status_json 500
                       (literal [ ("success", Boolean false);
                                  ("error", Str (if message e =? ""
                                                 then "Failed to confirm payment"
                                                 else message e)) ])))).
Proof.
  split.
  - intros H. unfold confirm_payment. cbv [bind lift ret try_catch await].
    simpl get. cbv iota beta. rewrite H. reflexivity.
  - intros e H He. unfold confirm_payment. cbv [bind lift ret try_catch await].
    simpl get. cbv iota beta. rewrite H, He. simpl. unfold or. simpl.
    destruct (message e =? ""); reflexivity.
Qed.

(** X14. Without a configured webhook secret every webhook request,
    validly signed or not, is answered 500 "Webhook secret not
    configured"; the signature is not looked at and nothing is sent. *)
Theorem webhook_needs_secret env sig req_body :
  configured (STRIPE_WEBHOOK_SECRET env) = false ->
  webhook rt sv tpl env sig req_body
    = ([], Normal (res_status_json 500
                     (literal [ ("error", Str "Webhook secret not configured") ]))).
Proof.
  unfold configured, webhook. intros ->. reflexivity.
Qed.

(** X15. A validly signed event of any type other than
    "payment_intent.succeeded" and "payment_intent.payment_failed" is
    acknowledged with 200 [{received: true}] and causes no call. *)
Theorem webhook_unhandled_type env sig req_body event t :
  configured (STRIPE_WEBHOOK_SECRET env) = true ->
  stripe_webhooks_constructEvent sv req_body sig
    (env_value (STRIPE_WEBHOOK_SECRET env)) = Normal event ->
  get event "type" = Normal (Str t) ->
  t <> "payment_intent.succeeded" ->
  t <> "payment_intent.payment_failed" ->
  webhook rt sv tpl env sig req_body
    = ([], Normal (res_status_json 200 (literal [ ("received", Boolean true) ]))).
Proof.
  intros Hs He Ht H1 H2. unfold webhook. unfold configured in Hs.
  rewrite Hs, He. simpl negb. cbv iota. unfold dispatch. rewrite Ht.
  cbv [bind lift ret try_catch]. simpl is_string.
  apply String.eqb_neq in H1, H2. rewrite H1, H2. reflexivity.
Qed.

(** X16. A validly signed event of one of the two handled types whose
    [data.object] is absent or null is answered 500 "Failed to process
    webhook event" and nothing is sent: reading the intent's id, for
    the log line, throws. *)
Theorem webhook_event_without_object env sig req_body event t :
  configured (STRIPE_WEBHOOK_SECRET env) = true ->
  stripe_webhooks_constructEvent sv req_body sig
    (env_value (STRIPE_WEBHOOK_SECRET env)) = Normal event ->
  get event "type" = Normal (Str t) ->
  t = "payment_intent.succeeded" \/ t = "payment_intent.payment_failed" ->
  (forall paymentIntent, get2 event "data" "object" = Normal paymentIntent ->
                         nullish paymentIntent = true) ->
  webhook rt sv tpl env sig req_body
    = ([], Normal (res_status_json 500
                     (literal [ ("error", Str "Failed to process webhook event") ]))).
Proof.
  intros Hs He Ht Hty Hobj. unfold webhook. unfold configured in Hs.
  rewrite Hs, He. simpl negb. cbv iota. unfold dispatch. rewrite Ht.
  unfold get2 in Hobj.
  cbv [bind lift ret try_catch].
  destruct Hty as [-> | ->]; simpl is_string; cbv iota beta;
    (destruct (get event "data") as [data|]; [|reflexivity];
     simpl in Hobj;
     destruct (get data "object") as [pi|]; [|reflexivity];
     specialize (Hobj pi eq_refl);
     destruct pi; try discriminate; reflexivity).
Qed.

End Gateway.

(** ** Snapshot, error middleware, health and CORS *)

Section Surface.

Variable sv : services.

(** X17. GET /api/payment-intent/:id: a retrieved intent is answered
    200 with exactly [success], [id], [status], [amount], [currency],
    [created] and [payment_method] taken from it; a failed retrieval is
    answered 500 with the provider's message (or "Failed to retrieve
    payment intent"); and no answer of the route ever has a
    [client_secret], [metadata] or [receipt_email] field. *)
Theorem get_payment_intent_snapshot id :
  (forall fs,
     stripe_paymentIntents_retrieve sv id = Normal (Obj fs) ->
     get_payment_intent sv (Obj [ ("id", id) ])
       = ([PaymentIntentsRetrieve id],
          Normal (res_status_json 200
                    (Obj [ ("success", Boolean true);
                           ("id", lookup fs "id");
                           ("status", lookup fs "status");
                           ("amount", lookup fs "amount");
                           ("currency", lookup fs "currency");
                           ("created", lookup fs "created");
                           ("payment_method", lookup fs "payment_method") ]))))
  /\ (forall e,
        stripe_paymentIntents_retrieve sv id = Throw e ->
        get_payment_intent sv (Obj [ ("id", id) ])
          = ([PaymentIntentsRetrieve id],
             Normal (res_status_json 500
                       (literal [ ("success", Boolean false);
                                  ("error", Str (if message e =? ""
                                                 then "Failed to retrieve payment intent"
                                                 else message e)) ]))))
  /\ (forall r,
        result (get_payment_intent sv (Obj [ ("id", id) ])) = Normal r ->
        present (json_body r) "client_secret" = false
        /\ present (json_body r) "metadata" = false
        /\ present (json_body r) "receipt_email" = false).
Proof.
  unfold get_payment_intent. cbv [bind lift ret try_catch await result].
  simpl get. cbv iota beta.
  split; [|split].
  - intros fs ->. reflexivity.
  - intros e ->. simpl. unfold or. simpl.
    destruct (message e =? ""); reflexivity.
  - intros r.
    destruct (stripe_paymentIntents_retrieve sv id) as [pi|e].
    + destruct (get pi "id"); [|simpl; intros H; injection H as <-; repeat split].
      destruct (get pi "status"); [|simpl; intros H; injection H as <-; repeat split].
      destruct (get pi "amount"); [|simpl; intros H; injection H as <-; repeat split].
      destruct (get pi "currency"); [|simpl; intros H; injection H as <-; repeat split].
      destruct (get pi "created"); [|simpl; intros H; injection H as <-; repeat split].
      destruct (get pi "payment_method");
        simpl; intros H; injection H as <-; repeat split.
    + simpl. intros H. injection H as <-. repeat split.
Qed.

(** X18. The error handling middleware answers 500 "Internal server
    error"; unless [NODE_ENV] is exactly "development" the answer is the
    same for every error (its message is replaced by "Something went
    wrong"); in development the error's message is included. *)
Theorem error_middleware_hides_message env :
  (NODE_ENV env <> Some "development" ->
   forall e,
     error_middleware env e
       = res_status_json 500
           (literal [ ("success", Boolean false);
                      ("error", Str "Internal server error");
                      ("message", Str "Something went wrong") ]))
  /\ (NODE_ENV env = Some "development" ->
      forall e,
        error_middleware env e
          = res_status_json 500
              (literal [ ("success", Boolean false);
                         ("error", Str "Internal server error");
                         ("message", Str (message e)) ])).
Proof.
  unfold error_middleware. split.
  - intros Hne e. destruct (NODE_ENV env) as [s|]; simpl; [|reflexivity].
    destruct (s =? "development") eqn:E; [|reflexivity].
    apply String.eqb_eq in E. subst s. contradiction.
  - intros -> e. reflexivity.
Qed.

(** X19. With [NODE_ENV] unset or empty the health check reports the
    environment as "development", and yet the error handling middleware
    treats the process as not in development: it hides the error
    message. *)
Theorem health_development_label_hides_errors env e :
  configured (NODE_ENV env) = false ->
  get (json_body (health sv env)) "environment" = Normal (Str "development")
  /\ get (json_body (error_middleware env e)) "message"
     = Normal (Str "Something went wrong").
Proof.
  unfold configured, error_middleware, health.
  destruct (NODE_ENV env) as [s|]; simpl.
  - intros H. apply negb_false_iff, String.eqb_eq in H. subst s.
    split; reflexivity.
  - intros _. split; reflexivity.
Qed.

(** X20. A request the CORS gate refuses (an Origin that is neither
    empty nor in the allow-list) is answered by the error handling
    middleware: 500 "Internal server error", with the CORS policy text
    as message in development only; a request the gate allows is not
    answered by it. *)
Theorem cors_rejection_is_internal_error env (o : option string) :
  (forall s, o = Some s -> s <> "" -> ~ In s allowedOrigins ->
     cors_rejection env (env_value o)
       = Some (res_status_json 500
                 (literal
                    [ ("success", Boolean false);
                      ("error", Str "Internal server error");
                      ("message",
                        Str (if is_string (env_value (NODE_ENV env)) "development"
                             then cors_message
                             else "Something went wrong")) ])))
  /\ (o = None \/ o = Some "" \/ (exists s, o = Some s /\ In s allowedOrigins) ->
      cors_rejection env (env_value o) = None).
Proof.
  unfold cors_rejection, cors_origin. split.
  - intros s -> Hne Hnin. simpl env_value.
    assert (Ht : truthy (Str s) = true)
      by (simpl; apply negb_true_iff, String.eqb_neq; exact Hne).
    rewrite Ht. simpl negb. cbv iota.
    apply indexOf_minus_one in Hnin. rewrite Hnin. simpl.
    unfold error_middleware.
    destruct (is_string (env_value (NODE_ENV env)) "development"); reflexivity.
  - intros [-> | [-> | (s & -> & Hin)]]; try reflexivity.
    simpl env_value. destruct (negb (truthy (Str s))); [reflexivity|].
    destruct (indexOf allowedOrigins (Str s) =? -1)%Z eqn:E; [|reflexivity].
    apply Z.eqb_eq, indexOf_minus_one in E. contradiction.
Qed.

(** X21. The health check tells the truth about the configuration the
    handlers use: [email_configured] is true exactly when the e-mail
    transporter exists, and [stripe_key_configured] is true in every
    process that got past start-up. *)
Theorem health_reports_configuration env :
  get (json_body (health sv env)) "email_configured"
    = Normal (Boolean (truthy (emailTransporter env)))
  /\ (starts env = true ->
      get (json_body (health sv env)) "stripe_key_configured" = Normal (Boolean true)).
Proof.
  split.
  - unfold health, emailTransporter. simpl.
    destruct (truthy (and _ _)); reflexivity.
  - unfold starts, health. simpl. intros ->. reflexivity.
Qed.

End Surface.

(** ** The PayPal notification and the card payment round trip *)

Section Orders.

Variable rt : builtins.
Variable sv : services.
Variable tpl : templates.

(** X22. A PayPal confirmation with a transporter configured and a
    customer e-mail sends exactly two messages, both from
    [EMAIL_USER]: "New Order - Payment <orderID>" to [BUSINESS_EMAIL]
    (or the default address) and "Order Confirmation - Payment
    <orderID>" to the customer; both show [amount.toFixed(2)], the
    method "PayPal" and the customer's name, "Customer" when none is
    given. *)
Theorem process_paypal_payment_mails env fs cfs n e oid nm :
  truthy (lookup fs "orderID") = true ->
  truthy (lookup fs "payerID") = true ->
  lookup fs "amount" = Num n ->
  truthy (Num n) = true ->
  lookup fs "customer" = Obj cfs ->
  lookup cfs "email" = Str e ->
  e <> "" ->
  truthy (emailTransporter env) = true ->
  to_string rt (lookup fs "orderID") = Normal oid ->
  to_string rt (or (lookup cfs "name") (Str "Customer")) = Normal nm ->
  trace (process_paypal_payment rt sv tpl env (Obj fs))
    = [ SendMail
          (literal
             [ ("from", env_value (EMAIL_USER env));
               ("to", or (env_value (BUSINESS_EMAIL env)) (Str "anaroyes7@gmail.com"));
               ("subject", Str ("New Order - Payment " ++ oid));
               ("html", Str (business_html tpl
                               [oid; toFixed2 rt n; "PayPal"; nm; e;
                                Date_toLocaleDateString sv])) ]);
        SendMail
          (literal
             [ ("from", env_value (EMAIL_USER env));
               ("to", Str e);
               ("subject", Str ("Order Confirmation - Payment " ++ oid));
               ("html", Str (customer_html tpl
                               [oid; nm; toFixed2 rt n; "PayPal"])) ]) ].
Proof.
  intros Ho Hp Ha Hn Hc He Hne Ht Hoid Hnm.
  assert (Hte : truthy (Str e) = true)
    by (simpl; apply negb_true_iff, String.eqb_neq; exact Hne).
  unfold process_paypal_payment.
  cbv [bind lift ret try_catch trace]. simpl get. cbv iota beta.
  rewrite Ho, Hp, Ha, Hn. simpl orb. cbv iota.
  simpl call_toFixed2. cbv iota beta. rewrite Hc.
  unfold get_opt. simpl nullish. cbv iota. simpl get. cbv iota beta.
  rewrite He, Ht.
  set (s := {| customerEmail := Str e;
               customerName := or (lookup cfs "name") (Str "Customer");
               amount := Str (toFixed2 rt n);
               paymentId := lookup fs "orderID";
               paymentMethod := "PayPal" |}).
  erewrite (sendOrderEmails_sends rt sv tpl env _ (Obj cfs) (lookup fs "items") (Num n) s).
  - reflexivity.
  - exact Ht.
  - unfold summarize, paypalPayment. simpl. rewrite He. simpl.
    unfold or at 1. rewrite Hte.
    unfold or at 2. destruct (truthy (Str (toFixed2 rt n))); reflexivity.
  - exact Hte.
  - unfold businessEmailOptions. simpl. rewrite Hoid, Hnm. reflexivity.
  - unfold customerEmailOptions. simpl. rewrite Hoid, Hnm. reflexivity.
Qed.

(** X23. A PayPal confirmation without a customer e-mail succeeds with
    200 and the payment record, and no mail is sent, not even the
    business notice, whether or not a transporter is configured. *)
Theorem process_paypal_payment_without_email env fs n email :
  truthy (lookup fs "orderID") = true ->
  truthy (lookup fs "payerID") = true ->
  lookup fs "amount" = Num n ->
  truthy (Num n) = true ->
  get_opt (lookup fs "customer") "email" = Normal email ->
  truthy email = false ->
  process_paypal_payment rt sv tpl env (Obj fs)
    = ([], Normal (res_status_json 200
                     (literal
                        [ ("success", Boolean true);
                          ("payment",
                            paypalPayment sv (lookup fs "orderID")
                              (lookup fs "payerID") email
                              (Str (toFixed2 rt n))) ]))).
Proof.
  intros Ho Hp Ha Hn Hemail Hf.
  unfold process_paypal_payment.
  cbv [bind lift ret try_catch]. simpl get. cbv iota beta.
  rewrite Ho, Hp, Ha, Hn. simpl orb. cbv iota.
  simpl call_toFixed2. cbv iota beta. rewrite Hemail. cbv iota beta.
  destruct (truthy (emailTransporter env)); [|reflexivity].
  destruct (sendOrderEmails_outcome rt sv tpl env
              (paypalPayment sv (lookup fs "orderID") (lookup fs "payerID")
                 email (Str (toFixed2 rt n)))
              (lookup fs "customer") (lookup fs "items") (Num n))
    as [E | (s & b & m & Hs & He & _)].
  - rewrite E. reflexivity.
  - exfalso. revert Hs. unfold summarize, paypalPayment. simpl get. simpl cbind.
    simpl is_string. cbv iota.
    assert (Hd : get_opt (default (lookup fs "customer") Null) "email" = Normal email).
    { revert Hemail. unfold get_opt.
      destruct (lookup fs "customer"); simpl; auto. }
    rewrite Hd. simpl cbind.
    destruct (get_opt (default (lookup fs "customer") Null) "name"); simpl;
      [|discriminate].
    intros H. injection H as <-. simpl in He.
    rewrite truthy_or, Hf in He. discriminate.
Qed.

(** X24. Round trip of the customer through the provider: when an
    intent carries the [receipt_email] and the [metadata] of the charge
    request built by create-payment-intent, the notifier resolves the
    customer e-mail to the customer's e-mail of that request (and to no
    e-mail at all when the request had none), and the customer name to
    the request's name, "Customer" when it had none. *)
Theorem created_intent_is_notified
    amt currency customer items metadata params email name ifs c t s :
  create_params rt amt currency customer items metadata = Normal params ->
  get_opt customer "email" = Normal email ->
  get_opt customer "name" = Normal name ->
  lookup ifs "object" = Str "payment_intent" ->
  get params "receipt_email" = Normal (lookup ifs "receipt_email") ->
  get params "metadata" = Normal (lookup ifs "metadata") ->
  summarize rt (Obj ifs) c t = Normal s ->
  (truthy email = true -> customerEmail s = email)
  /\ (truthy email = false -> truthy (customerEmail s) = false)
  /\ customerName s = (if truthy name then name else Str "Customer").
Proof.
  unfold create_params. intros Hp Hemail Hname Ho Hr Hm.
  rewrite Hemail, Hname in Hp.
  destruct (to_number rt amt); simpl in Hp; [|discriminate].
  destruct (items_count rt items) as [count|]; simpl in Hp; [|discriminate].
  injection Hp as <-.
  simpl in Hr. injection Hr as Hr.
  unfold literal in Hm. simpl get in Hm. injection Hm as Hm.
  unfold summarize. simpl get. simpl cbind. rewrite Ho. simpl is_string. cbv iota.
  rewrite <- Hm, <- Hr. unfold get_opt. simpl nullish. cbv iota. simpl get.
  rewrite !fold_left_app. simpl fold_left. simpl cbind.
  rewrite (lookup_assign_other _ "items_count" "customer_email") by discriminate.
  rewrite (lookup_assign_other _ "customer_name" "customer_email") by discriminate.
  rewrite lookup_assign_same.
  rewrite (lookup_assign_other _ "items_count" "customer_name") by discriminate.
  rewrite lookup_assign_same.
  destruct (to_number rt (lookup ifs "amount")); simpl; [|discriminate].
  intros H. injection H as <-. simpl.
  split; [|split].
  - intros Ht. unfold or. rewrite Ht. reflexivity.
  - intros Ht. unfold or. rewrite Ht. simpl. reflexivity.
  - unfold or. destruct (truthy name) eqn:En; [rewrite En; reflexivity | reflexivity].
Qed.

End Orders.

(** * The further properties on concrete requests *)

Module FurtherExamples.

Import Sample.

Lemma webhook_without_customer_email_witness :
  webhook rt world tpl env (Str "good") event_without_email = ([], Normal received).
Proof.
  apply (webhook_without_customer_email rt world tpl env (Str "good")
           event_without_email event_without_email
           (intent_fields "pi_1" "succeeded" Null) Undefined); reflexivity.
Defined.

Lemma webhook_succeeded_is_acknowledged_witness :
  result (webhook rt mailer_down tpl env (Str "good") succeeded_event)
    = Normal received.
Proof.
  apply (webhook_succeeded_is_acknowledged rt mailer_down tpl env (Str "good")
           succeeded_event succeeded_event
           (intent "pi_1" "succeeded" (Str "a@b.com"))); reflexivity.
Defined.

Lemma responses_ignore_mail_witness :
  result (process_paypal_payment rt world tpl env (Obj paypal_19_99))
    = result (process_paypal_payment rt mailer_down tpl env_no_email (Obj paypal_19_99))
  /\ result (confirm_payment rt world tpl env (Obj confirm_pi_1))
     = result (confirm_payment rt mailer_down tpl env_no_email (Obj confirm_pi_1))
  /\ result (webhook rt world tpl env (Str "good") succeeded_event)
     = result (webhook rt mailer_down tpl env_no_email (Str "good") succeeded_event).
Proof.
  split; [|split].
  - apply (proj1 (responses_ignore_mail rt)). reflexivity.
  - apply (proj1 (proj2 (responses_ignore_mail rt))). reflexivity.
  - apply (proj2 (proj2 (responses_ignore_mail rt))); reflexivity.
Defined.

Lemma create_payment_intent_provider_error_witness :
  exists params,
    create_payment_intent rt provider_down (Obj intent_50_5)
      = ([PaymentIntentsCreate params],
         Normal (res_status_json 500
                   (literal [ ("success", Boolean false);
                              ("error", Str "Your card was declined.");
                              ("code", Str "card_error") ]))).
Proof.
  eexists.
  eapply (create_payment_intent_provider_error rt provider_down intent_50_5
            (Finite (101 # 2)) _ card_declined); reflexivity.
Defined.

Lemma create_payment_intent_forwards_witness :
  exists params,
    trace (create_payment_intent rt world (Obj intent_full))
      = [PaymentIntentsCreate params]
    /\ get params "currency" = Normal (Str "usd")
    /\ get params "receipt_email" = Normal (Str "a@b.com")
    /\ get params "description" = Normal (Str description)
    /\ get2 params "metadata" "customer_email" = Normal (Str "a@b.com")
    /\ get2 params "metadata" "customer_name" = Normal (Str "Ada")
    /\ get2 params "metadata" "items_count" = Normal (Str "2")
    /\ (forall k, k <> "customer_email" -> k <> "customer_name" ->
                  k <> "items_count" ->
                  get2 params "metadata" k
                    = get (literal (spread caller_metadata)) k).
Proof.
  apply (create_payment_intent_forwards rt world intent_full (Finite (101 # 2))
           (Str "2") (Str "a@b.com") (Str "Ada")); reflexivity.
Defined.

Lemma create_payment_intent_coerces_strings_witness :
  exists params,
    trace (create_payment_intent rt world (Obj intent_string))
      = [PaymentIntentsCreate params]
    /\ get params "amount" = Normal (Num (of_Z 75))
    /\ (forall r, result (create_payment_intent rt world (Obj intent_string)) = Normal r ->
                  status r <> 400).
Proof.
  apply (create_payment_intent_coerces_strings rt world intent_string "75" (Str "0"));
    try reflexivity.
  discriminate.
Defined.

Lemma confirm_payment_errors_witness :
  confirm_payment rt world tpl env (Obj [])
    = ([], Normal (res_status_json 400
                     (literal [ ("success", Boolean false);
                                ("error", Str "Payment intent ID is required") ])))
  /\ confirm_payment rt provider_down tpl env (Obj confirm_pi_1)
     = ([PaymentIntentsRetrieve (Str "pi_1")],
        Normal (res_status_json 500
                  (literal [ ("success", Boolean false);
                             ("error", Str "No such payment_intent: 'pi_0'") ]))).
Proof.
  split.
  - apply (proj1 (confirm_payment_errors rt world tpl env [])). reflexivity.
  - apply (proj2 (confirm_payment_errors rt provider_down tpl env confirm_pi_1)
             no_such_intent); reflexivity.
Defined.

Lemma webhook_needs_secret_witness :
  webhook rt world tpl env_no_secret (Str "good") succeeded_event
    = ([], Normal (res_status_json 500
                     (literal [ ("error", Str "Webhook secret not configured") ]))).
Proof.
  apply (webhook_needs_secret rt world tpl env_no_secret). reflexivity.
Defined.

Lemma webhook_unhandled_type_witness :
  webhook rt world tpl env (Str "good") refund_event = ([], Normal received).
Proof.
  apply (webhook_unhandled_type rt world tpl env (Str "good") refund_event
           refund_event "charge.refunded"); try reflexivity; discriminate.
Defined.

Lemma webhook_event_without_object_witness :
  webhook rt world tpl env (Str "good") event_without_object
    = ([], Normal (res_status_json 500
                     (literal [ ("error", Str "Failed to process webhook event") ]))).
Proof.
  apply (webhook_event_without_object rt world tpl env (Str "good")
           event_without_object event_without_object
           "payment_intent.payment_failed"); try reflexivity.
  - right. reflexivity.
  - intros paymentIntent H. injection H as <-. reflexivity.
Defined.

Lemma get_payment_intent_snapshot_witness :
  get_payment_intent world (Obj [ ("id", Str "pi_1") ])
    = ([PaymentIntentsRetrieve (Str "pi_1")],
       Normal (res_status_json 200
                 (Obj [ ("success", Boolean true);
                        ("id", Str "pi_1");
                        ("status", Str "succeeded");
                        ("amount", Num (of_Z 1999));
                        ("currency", Undefined);
                        ("created", Undefined);
                        ("payment_method", Undefined) ])))
  /\ get_payment_intent provider_down (Obj [ ("id", Str "pi_0") ])
     = ([PaymentIntentsRetrieve (Str "pi_0")],
        Normal (res_status_json 500
                  (literal [ ("success", Boolean false);
                             ("error", Str "No such payment_intent: 'pi_0'") ]))).
Proof.
  split.
  - apply (proj1 (get_payment_intent_snapshot world (Str "pi_1"))
             (intent_fields "pi_1" "succeeded" (Str "a@b.com"))).
    reflexivity.
  - apply (proj1 (proj2 (get_payment_intent_snapshot provider_down (Str "pi_0")))
             no_such_intent).
    reflexivity.
Defined.

Lemma error_middleware_hides_message_witness :
  error_middleware env card_declined
    = res_status_json 500
        (literal [ ("success", Boolean false);
                   ("error", Str "Internal server error");
                   ("message", Str "Something went wrong") ])
  /\ error_middleware env_development card_declined
     = res_status_json 500
         (literal [ ("success", Boolean false);
                    ("error", Str "Internal server error");
                    ("message", Str "Your card was declined.") ]).
Proof.
  split.
  - apply (proj1 (error_middleware_hides_message env)). discriminate.
  - apply (proj2 (error_middleware_hides_message env_development)). reflexivity.
Defined.

Lemma health_development_label_hides_errors_witness :
  get (json_body (health world env)) "environment" = Normal (Str "development")
  /\ get (json_body (error_middleware env card_declined)) "message"
     = Normal (Str "Something went wrong").
Proof.
  apply (health_development_label_hides_errors world env card_declined).
  reflexivity.
Defined.

Lemma cors_rejection_is_internal_error_witness :
  cors_rejection env (Str "https://evil.example")
    = Some (res_status_json 500
              (literal [ ("success", Boolean false);
                         ("error", Str "Internal server error");
                         ("message", Str "Something went wrong") ]))
  /\ cors_rejection env (Str "https://pakbh.com") = None.
Proof.
  split.
  - apply (proj1 (cors_rejection_is_internal_error env (Some "https://evil.example"))
             "https://evil.example"); [reflexivity | discriminate |].
    simpl. intros H. repeat destruct H as [H|H]; try discriminate H. exact H.
  - apply (proj2 (cors_rejection_is_internal_error env (Some "https://pakbh.com"))).
    right. right. exists "https://pakbh.com". split; [reflexivity|].
    simpl. tauto.
Defined.

Lemma health_reports_configuration_witness :
  get (json_body (health world env)) "email_configured" = Normal (Boolean true)
  /\ get (json_body (health world env)) "stripe_key_configured"
     = Normal (Boolean true).
Proof.
  split.
  - apply (proj1 (health_reports_configuration world env)).
  - apply (proj2 (health_reports_configuration world env)). reflexivity.
Defined.

Lemma process_paypal_payment_mails_witness :
  trace (process_paypal_payment rt world tpl env (Obj paypal_19_99))
    = [ SendMail
          (literal
             [ ("from", Str "shop@example.com");
               ("to", Str "anaroyes7@gmail.com");
               ("subject", Str "New Order - Payment O1");
               ("html", Str (business_html tpl
                               ["O1"; "19.99"; "PayPal"; "Customer"; "a@b.com";
                                "1/1/2024"])) ]);
        SendMail
          (literal
             [ ("from", Str "shop@example.com");
               ("to", Str "a@b.com");
               ("subject", Str "Order Confirmation - Payment O1");
               ("html", Str (customer_html tpl
                               ["O1"; "Customer"; "19.99"; "PayPal"])) ]) ].
Proof.
  apply (process_paypal_payment_mails rt world tpl env paypal_19_99
           [ ("email", Str "a@b.com") ] n_19_99 "a@b.com" "O1" "Customer");
    try reflexivity.
  discriminate.
Defined.

Lemma process_paypal_payment_without_email_witness :
  process_paypal_payment rt world tpl env (Obj paypal_no_customer)
    = ([], Normal (res_status_json 200
                     (literal
                        [ ("success", Boolean true);
                          ("payment",
                            paypalPayment world (Str "O1") (Str "P1") Undefined
                              (Str "25.00")) ]))).
Proof.
  apply (process_paypal_payment_without_email rt world tpl env paypal_no_customer
           (of_Z 25) Undefined); reflexivity.
Defined.

Lemma created_intent_is_notified_witness :
  (truthy (Str "a@b.com") = true -> customerEmail echo_summary = Str "a@b.com")
  /\ (truthy (Str "a@b.com") = false -> truthy (customerEmail echo_summary) = false)
  /\ customerName echo_summary
     = (if truthy (Str "Ada") then Str "Ada" else Str "Customer").
Proof.
  apply (created_intent_is_notified rt (Num (Finite (101 # 2))) (Str "usd")
           customer_ada (Arr [Str "bundle"; Str "closure"]) caller_metadata
           params_full (Str "a@b.com") (Str "Ada") (echo params_full) Null Null
           echo_summary);
    reflexivity.
Defined.

End FurtherExamples.
